(** * The Readit Report: sarcasm override, aggregation, filtering and the
      session flow of [app.py], embedded in Rocq.

    The script delegates search and comment retrieval to a forum client and
    sentiment inference to a pretrained pipeline.  Both are external; they
    appear here as variables of a section.  Everything the script itself
    computes (the sarcasm rule, the inversion table, the counts, the filter,
    the button handlers acting on the session state) is translated from the
    source, statement by statement. *)

From Stdlib Require Import Ascii String.
From stdpp Require Import base option list strings gmap.

Local Open Scope string_scope.
Local Open Scope list_scope.

(** ** Python [str] operations used by the script

    A Python string is modelled by [string]; its characters are [ascii]
    code units.  Case mapping and whitespace follow Python on the ASCII
    range; code units from 128 on have no case and are no whitespace. *)

Module PyStr.

Definition chars (s : string) : list ascii := list_ascii_of_string s.
Definition of_chars (l : list ascii) : string := string_of_list_ascii l.

Definition is_upper (c : ascii) : bool :=
  let n := nat_of_ascii c in Nat.leb 65 n && Nat.leb n 90.

Definition is_lower (c : ascii) : bool :=
  let n := nat_of_ascii c in Nat.leb 97 n && Nat.leb n 122.

(** [str.isspace] on one character: tab, newline, vertical tab, form feed,
    carriage return, the four separators 28..31 and the space. *)
Definition is_space (c : ascii) : bool :=
  let n := nat_of_ascii c in
  (Nat.leb 9 n && Nat.leb n 13) || (Nat.leb 28 n && Nat.leb n 31) || Nat.eqb n 32.

Definition lower_char (c : ascii) : ascii :=
  if is_upper c then ascii_of_nat (nat_of_ascii c + 32) else c.

Definition upper_char (c : ascii) : ascii :=
  if is_lower c then ascii_of_nat (nat_of_ascii c - 32) else c.

(** [s.lower()] *)
Definition lower (s : string) : string :=
  of_chars (map lower_char (chars s)).

(** [s.capitalize()]: first character upper-cased, the rest lower-cased. *)
Definition capitalize (s : string) : string :=
  match chars s with
  | [] => ""
  | c :: r => of_chars (upper_char c :: map lower_char r)
  end.

(** [s.endswith(suffix)] *)
Definition endswith (s suffix : string) : bool :=
  let l := chars s in
  let t := chars suffix in
  Nat.leb (length t) (length l) &&
  bool_decide (drop (length l - length t) l = t).

(** [s[:-2]]: all but the last two characters; empty when [s] has fewer
    than two. *)
Definition slice_to_minus2 (s : string) : string :=
  let l := chars s in of_chars (take (length l - 2) l).

Fixpoint lstrip_chars (l : list ascii) : list ascii :=
  match l with
  | [] => []
  | c :: r => if is_space c then lstrip_chars r else l
  end.

Definition rstrip_chars (l : list ascii) : list ascii :=
  rev (lstrip_chars (rev l)).

(** [s.strip()] *)
Definition strip (s : string) : string :=
  of_chars (rstrip_chars (lstrip_chars (chars s))).

(** [l.count(x)] on a list of strings *)
Definition count (x : string) (l : list string) : nat :=
  length (List.filter (String.eqb x) l).

End PyStr.

(** ** Data model *)

(** A post as [search_posts] builds it: the dict with keys ['id'], ['title'],
    ['subreddit'], ['num_comments'], ['url']. *)
Record post := Post {
  post_id : string;
  post_title : string;
  post_subreddit : string;
  post_num_comments : nat;
  post_url : string
}.

(** What [comment.parent()] can be in [isinstance] terms. *)
Inductive praw_parent :=
| ParentComment (parent_body : string)
| ParentSubmission (parent_title : string)
| ParentOther.

(** A comment as the forum client hands it over. *)
Record praw_comment := PrawComment {
  body : string;
  parent : praw_parent
}.

(** An entry of [structured_comments]. *)
Record comment_data := CommentData {
  cd_text : string;
  cd_parent_text : string
}.

(** One result of the inference pipeline.  The dict also carries a ['score'];
    the script never reads it. *)
Record prediction := Prediction { label : string }.

(** An entry of [analyzed_comments]. *)
Record analyzed_comment := AnalyzedComment {
  text : string;
  sentiment_category : string;
  display_label : string;
  parent_text : string
}.

(** The ['counts'] dict. *)
Record summary_counts := SummaryCounts {
  total_comments : nat;
  n_positive : nat;
  n_negative : nat;
  n_neutral : nat;
  n_sarcastic : nat
}.

(** The dict [analyze_comments] returns. *)
Record analysis := Analysis {
  counts : summary_counts;
  comments : list analyzed_comment
}.

(** [st.session_state].  The script stores a list of posts under ['posts'],
    the return value of [analyze_comments] (a dict or [None]) under
    ['analysis_results'], and the framework keeps every checkbox under its
    key ["cb_<id>"].  [None] in the first two fields is "key not in
    session_state"; [Some None] in the second is "key present, value
    [None]". *)
Record session_state := SessionState {
  posts : option (list post);
  analysis_results : option (option analysis);
  widgets : gmap string bool
}.

(** The two ways the script calls [sentiment_pipeline]: on one string, or on
    a list of strings. *)
Inductive pipeline_input :=
| Single (s : string)
| Batch (l : list string).

(** The button whose click triggered the current rerun of the script.  A
    [st.button] returns [True] only during the rerun its own click caused. *)
Inductive action :=
| ClickSearch
| ClickAnalyze
| OtherInteraction.

(** What a run does that is visible from outside: calls to the external
    collaborators, calls of [analyze_comments], and what is put on the
    page. *)
Inductive event :=
| EvSearch (topic subreddit : string)
| EvFetch (id : string)
| EvPipeline (inp : pipeline_input)
| EvAnalyze (post_ids : list string)
| EvWarning (msg : string)
| EvError (msg : string)
| EvCheckbox (key : string)
| EvMetrics (c : summary_counts)
| EvShowing (shown all : nat)
| EvReplyTo (quoted : string)
| EvCard (number : nat) (emoji_color : string * string) (shown_label shown_text : string)
| EvWrite (msg : string).

Inductive exn :=
| IndexError
| KeyError (key : string).

Inductive outcome (A : Type) :=
| Ok (a : A)
| Raise (e : exn).
Arguments Ok {A} a.
Arguments Raise {A} e.

(** The state a run acts on: the session state and the log of events. *)
Record world := World {
  session : session_state;
  trace : list event
}.

(** ** The monad of the script: state, log and exceptions *)

Definition M (A : Type) : Type := world -> outcome A * world.

#[global] Instance M_ret : MRet M := fun A a w => (Ok a, w).

#[global] Instance M_bind : MBind M := fun A B f m w =>
  match m w with
  | (Ok a, w') => f a w'
  | (Raise e, w') => (Raise e, w')
  end.

Definition raise {A} (e : exn) : M A := fun w => (Raise e, w).

Definition emit (e : event) : M unit :=
  fun w => (Ok tt, World (session w) (trace w ++ [e])).

Definition get_session : M session_state := fun w => (Ok (session w), w).

Definition put_session (s : session_state) : M unit :=
  fun w => (Ok tt, World s (trace w)).

(** [l[i]] *)
Definition index {A} (l : list A) (i : nat) : M A :=
  match l !! i with
  | Some a => mret a
  | None => raise IndexError
  end.

(** [for x in l: f x] *)
Fixpoint for_each {A} (f : A -> M unit) (l : list A) : M unit :=
  match l with
  | [] => mret tt
  | x :: r => f x;; for_each f r
  end.

(** [for i, x in enumerate(l): f i x], counting from [i]. *)
Fixpoint for_enumerate {A} (f : nat -> A -> M unit) (i : nat) (l : list A) : M unit :=
  match l with
  | [] => mret tt
  | x :: r => f i x;; for_enumerate f (S i) r
  end.

(** ** Original logic of [app.py] that needs no collaborator *)

(** Lines 93-98: the [if]/[elif]/[else] that turns the underlying sentiment of
    a sarcastic comment around. *)
Definition reversed_sentiment (original_sentiment : string) : string :=
  if String.eqb original_sentiment "Positive" then "Negative"
  else if String.eqb original_sentiment "Negative" then "Positive"
  else "Negative".

(** Lines 62-75: what the first loop records for one comment. *)
Definition structure_comment (comment : praw_comment) : comment_data :=
  let comment_body := PyStr.strip (body comment) in
  let parent_text :=
    match parent comment with
    | ParentComment parent_body => parent_body
    | ParentSubmission parent_title => parent_title
    | ParentOther => ""
    end in
  CommentData comment_body parent_text.

(** Lines 115-126: the summary and the returned dict. *)
Definition summarize (analyzed_comments : list analyzed_comment) : analysis :=
  let sentiments := map sentiment_category analyzed_comments in
  Analysis
    (SummaryCounts
       (length analyzed_comments)
       (PyStr.count "Positive" sentiments)
       (PyStr.count "Negative" sentiments)
       (PyStr.count "Neutral" sentiments)
       (PyStr.count "Sarcastic" sentiments))
    analyzed_comments.

(** Lines 199-202: the filter of the comment list. *)
Definition comments_to_display (filter_choice : string)
    (all_comments : list analyzed_comment) : list analyzed_comment :=
  if String.eqb filter_choice "All" then all_comments
  else List.filter (fun c => String.eqb (sentiment_category c) filter_choice) all_comments.

(** Lines 207-212: the dict [sentiment_map]; [None] is a missing key. *)
Definition sentiment_map (key : string) : option (string * string) :=
  if String.eqb key "Positive" then Some ("🟢", "green")
  else if String.eqb key "Negative" then Some ("🔴", "red")
  else if String.eqb key "Neutral" then Some ("⚪", "gray")
  else if String.eqb key "Sarcastic" then Some ("🎭", "orange")
  else None.

(** The entry of [SummaryCounts] that belongs to a category. *)
Definition count_of (category : string) (c : summary_counts) : option nat :=
  if String.eqb category "Positive" then Some (n_positive c)
  else if String.eqb category "Negative" then Some (n_negative c)
  else if String.eqb category "Neutral" then Some (n_neutral c)
  else if String.eqb category "Sarcastic" then Some (n_sarcastic c)
  else None.

#[global] Instance action_eq_dec : EqDecision action.
Proof. solve_decision. Defined.

(** [st.button(...)] for the button [this] in a rerun triggered by [clicked]. *)
Definition button (this clicked : action) : bool := bool_decide (this = clicked).

(** Python truthiness of a list. *)
Definition truthy {A} (l : list A) : bool :=
  match l with [] => false | _ => true end.

Section App.

(** The forum client: the posts a search returns, and the flattened
    comment forest of a submission after [replace_more]. *)
Variable reddit_search : string -> string -> list post.
Variable reddit_comments : string -> list praw_comment.

(** The inference pipeline. *)
Variable sentiment_pipeline : pipeline_input -> list prediction.

Definition call_pipeline (inp : pipeline_input) : M (list prediction) :=
  emit (EvPipeline inp);; mret (sentiment_pipeline inp).

(** Lines 34-50.  The memoisation of [st.cache_data] is not modelled: the
    body is a function of its arguments. *)
Definition search_posts (topic subreddit : string) : M (list post) :=
  let subreddit := if String.eqb subreddit "" then "all" else subreddit in
  emit (EvSearch topic subreddit);;
  mret (reddit_search topic subreddit).

(** Lines 58-75: both lists are extended in step, one post after the
    other. *)
Fixpoint collect_comments (post_ids : list string)
    (comments_to_analyze : list string) (structured_comments : list comment_data)
    : M (list string * list comment_data) :=
  match post_ids with
  | [] => mret (comments_to_analyze, structured_comments)
  | id :: rest =>
      emit (EvFetch id);;
      let cs := map structure_comment (reddit_comments id) in
      collect_comments rest
        (comments_to_analyze ++ map cd_text cs)
        (structured_comments ++ cs)
  end.

(** Lines 84-113: the body of the second loop, for the comment at index
    [i]. *)
Definition analyze_comment (results : list prediction) (i : nat)
    (comment_data : comment_data) : M analyzed_comment :=
  let comment_body := cd_text comment_data in
  if PyStr.endswith (PyStr.lower comment_body) "/s" then
    let sentiment_category := "Sarcastic" in
    let clean_text := PyStr.strip (PyStr.slice_to_minus2 comment_body) in
    single ← call_pipeline (Single clean_text);
    original_result ← index single 0;
    let original_sentiment := PyStr.capitalize (label original_result) in
    let display_label :=
      "Sarcastic (Reversed to " +:+ reversed_sentiment original_sentiment +:+ ")" in
    let text_to_display := clean_text in
    mret (AnalyzedComment text_to_display sentiment_category display_label
            (cd_parent_text comment_data))
  else
    prediction ← index results i;
    let sentiment_category := PyStr.capitalize (label prediction) in
    let display_label := sentiment_category in
    let text_to_display := comment_body in
    mret (AnalyzedComment text_to_display sentiment_category display_label
            (cd_parent_text comment_data)).

(** Lines 82-113: the second loop. *)
Fixpoint analyze_loop (results : list prediction) (i : nat)
    (structured_comments : list comment_data) : M (list analyzed_comment) :=
  match structured_comments with
  | [] => mret []
  | comment_data :: rest =>
      c ← analyze_comment results i comment_data;
      cs ← analyze_loop results (S i) rest;
      mret (c :: cs)
  end.

(** Lines 53-126.  [None] is Python's [None]. *)
Definition analyze_comments (post_ids : list string) : M (option analysis) :=
  emit (EvAnalyze post_ids);;
  collected ← collect_comments post_ids [] [];
  let comments_to_analyze := collected.1 in
  let structured_comments := collected.2 in
  if negb (truthy comments_to_analyze) then mret None
  else
    results ← call_pipeline (Batch comments_to_analyze);
    analyzed_comments ← analyze_loop results 0 structured_comments;
    mret (Some (summarize analyzed_comments)).

(** *** The script body, one rerun *)

Definition checkbox_key (p : post) : string := "cb_" +:+ post_id p.

(** Lines 136-139. *)
Definition search_section (clicked : action) (topic subreddit : string) : M unit :=
  if button ClickSearch clicked then
    found ← search_posts topic subreddit;
    s ← get_session;
    put_session (SessionState (Some found) (analysis_results s) (widgets s));;
    s ← get_session;
    match analysis_results s with
    | Some _ => put_session (SessionState (posts s) None (widgets s))
    | None => mret tt
    end
  else mret tt.

(** Lines 150-158; [ps] is the local [posts] of line 142. *)
Definition analyze_section (clicked : action) (ps : list post) : M unit :=
  if button ClickAnalyze clicked then
    s ← get_session;
    let selected_posts :=
      map post_id
        (List.filter (fun p => default false (widgets s !! checkbox_key p)) ps) in
    if truthy selected_posts then
      r ← analyze_comments selected_posts;
      s ← get_session;
      put_session (SessionState (posts s) (Some r) (widgets s))
    else emit (EvWarning "Please select at least one post to analyze.")
  else mret tt.

(** Lines 141-164. *)
Definition posts_section (clicked : action) : M unit :=
  s ← get_session;
  match posts s with
  | Some ps =>
      if negb (truthy ps) then emit (EvWarning "No posts found for this topic.")
      else
        analyze_section clicked ps;;
        for_each (fun p => emit (EvCheckbox (checkbox_key p))) ps
  | None => mret tt
  end.

(** Lines 213-222: one comment card. *)
Definition comment_card (i : nat) (comment : analyzed_comment) : M unit :=
  (if negb (String.eqb (parent_text comment) "") then
     emit (EvReplyTo (PyStr.of_chars (take 200 (PyStr.chars (parent_text comment)))))
   else mret tt);;
  let primary_sentiment := sentiment_category comment in
  match sentiment_map primary_sentiment with
  | Some emoji_color =>
      emit (EvCard (i + 1) emoji_color (display_label comment) (text comment))
  | None => raise (KeyError primary_sentiment)
  end.

(** Lines 166-224.  Headings, rules, columns and the bar chart only lay
    out the numbers of [EvMetrics]. *)
Definition results_section (filter_choice : string) : M unit :=
  s ← get_session;
  match analysis_results s with
  | Some results =>
      match results with
      | None => emit (EvError "Could not retrieve or analyze comments.")
      | Some results =>
          emit (EvMetrics (counts results));;
          let all_comments := comments results in
          let shown := comments_to_display filter_choice all_comments in
          emit (EvShowing (length shown) (length all_comments));;
          if truthy shown then for_enumerate comment_card 0 shown
          else emit (EvWrite "No comments found for this filter.")
      end
  | None => mret tt
  end.

(** Lines 130-224: the script from the two text inputs on. *)
Definition script (clicked : action) (topic subreddit filter_choice : string) : M unit :=
  search_section clicked topic subreddit;;
  posts_section clicked;;
  results_section filter_choice.

End App.

(** ** Vocabulary of the statements *)

(** The condition of line 86. *)
Definition is_sarcastic (comment_body : string) : bool :=
  PyStr.endswith (PyStr.lower comment_body) "/s".

(** The text line 88 keeps of a sarcastic comment. *)
Definition clean_text (comment_body : string) : string :=
  PyStr.strip (PyStr.slice_to_minus2 comment_body).

Definition whitespace (l : list ascii) : Prop :=
  Forall (fun c => PyStr.is_space c = true) l.

(** A text that neither starts nor ends with whitespace. *)
Definition trimmed (s : string) : Prop :=
  (forall c r, PyStr.chars s = c :: r -> PyStr.is_space c = false) /\
  (forall r c, PyStr.chars s = r ++ [c] -> PyStr.is_space c = false).

(** The three labels of the classifier, capitalised. *)
Definition base_label (s : string) : Prop :=
  s = "Positive" \/ s = "Negative" \/ s = "Neutral".

(** The four sentiment categories. *)
Definition category (s : string) : Prop :=
  s = "Positive" \/ s = "Negative" \/ s = "Neutral" \/ s = "Sarcastic".

(** The classifier's side of the interface: every label it returns is one of
    the three base labels, in whatever case. *)
Definition labels_ok (sentiment_pipeline : pipeline_input -> list prediction) : Prop :=
  forall inp p, In p (sentiment_pipeline inp) -> base_label (PyStr.capitalize (label p)).

(** The classifier's side of the interface: one result per text. *)
Definition shape_ok (sentiment_pipeline : pipeline_input -> list prediction) : Prop :=
  (forall s, length (sentiment_pipeline (Single s)) = 1) /\
  (forall l, length (sentiment_pipeline (Batch l)) = length l).

(** Events of the analysis pipeline, as opposed to those of the page. *)
Definition pipeline_event (e : event) : bool :=
  match e with
  | EvFetch _ | EvPipeline _ | EvAnalyze _ => true
  | _ => false
  end.

(** A computation that leaves the session state alone and only puts things
    on the page: it adds no event of the analysis pipeline. *)
Definition page_only {A} (m : M A) : Prop :=
  forall w,
    session (m w).2 = session w /\
    exists new, trace (m w).2 = trace w ++ new /\
                Forall (fun e => pipeline_event e = false) new.

(** The single-item calls the second loop makes, in order. *)
Definition single_calls (structured_comments : list comment_data) : list event :=
  flat_map
    (fun cd => if is_sarcastic (cd_text cd)
               then [EvPipeline (Single (clean_text (cd_text cd)))] else [])
    structured_comments.

(** All comments of the given posts, in the order of the first loop. *)
Definition fetched (reddit_comments : string -> list praw_comment)
    (post_ids : list string) : list comment_data :=
  flat_map (fun id => map structure_comment (reddit_comments id)) post_ids.

(** ** A small instance of the collaborators, for worked examples *)

Module Sample.

(** A stand-in classifier that looks at the first character only: an
    upper-case letter reads as positive, a lower-case one as negative,
    anything else as neutral. *)
Definition sample_label (s : string) : string :=
  match PyStr.chars s with
  | [] => "neutral"
  | c :: _ =>
      if PyStr.is_upper c then "positive"
      else if PyStr.is_lower c then "negative"
      else "neutral"
  end.

Definition pipeline (inp : pipeline_input) : list prediction :=
  match inp with
  | Single s => [Prediction (sample_label s)]
  | Batch l => map (fun s => Prediction (sample_label s)) l
  end.

(** One post with four comments, one without any. *)
Definition forum_comments (id : string) : list praw_comment :=
  if String.eqb id "p1" then
    [PrawComment "  This is great /s  " (ParentSubmission "A title");
     PrawComment "bad idea" (ParentComment "This is great /s");
     PrawComment " /S" ParentOther;
     PrawComment "Good point" ParentOther]
  else [].

Definition forum_search (topic subreddit : string) : list post :=
  [Post "p1" "First" subreddit 4 "https://example.org/1";
   Post "p2" "Second" subreddit 0 "https://example.org/2"].

Definition fresh : world := World (SessionState None None ∅) [].

(** The comment of the specification's example, as the first loop records
    it. *)
Definition great : comment_data := CommentData "This is great /s" "A title".

(** Posts loaded, a stale result on the page, the first post ticked. *)
Definition loaded_ticked : world :=
  World (SessionState (Some (forum_search "AI ethics" "technology"))
           (Some None) {[ "cb_p1" := true ]}) [].

(** Posts loaded, a stale result on the page, nothing ticked. *)
Definition loaded_unticked : world :=
  World (SessionState (Some (forum_search "AI ethics" "technology"))
           (Some None) {[ "cb_p1" := false ]}) [].

End Sample.

(** ** Start-up (lines 11-20) *)




(** ** Further vocabulary *)

(** Events that reach a collaborator or start the analysis. *)
Definition collaborator_event (e : event) : bool :=
  match e with
  | EvSearch _ _ | EvFetch _ | EvPipeline _ | EvAnalyze _ => true
  | _ => false
  end.

(** A computation that leaves the session state alone and adds no event
    that [bad] singles out. *)
Definition quiet {A} (bad : event -> bool) (m : M A) : Prop :=
  forall w,
    session (m w).2 = session w /\
    exists new, trace (m w).2 = trace w ++ new /\
                Forall (fun e => bad e = false) new.

(** The comment at index [k] can be given a label: a sarcastic one needs a
    non-empty answer to its single-item call, any other one the batched
    result at its index. *)
Definition labelable (sentiment_pipeline : pipeline_input -> list prediction)
    (results : list prediction) (k : nat) (cd : comment_data) : Prop :=
  if is_sarcastic (cd_text cd)
  then sentiment_pipeline (Single (clean_text (cd_text cd))) <> []
  else is_Some (results !! k).

(** The record the second loop makes of a comment: for a comment with the
    marker out of the answer to its single-item call, for any other comment
    out of one of the batched results. *)
Definition made_of (sentiment_pipeline : pipeline_input -> list prediction)
    (results : list prediction) (cd : comment_data) (ac : analyzed_comment) : Prop :=
  (is_sarcastic (cd_text cd) = true /\
   exists p rest,
     sentiment_pipeline (Single (clean_text (cd_text cd))) = p :: rest /\
     ac = AnalyzedComment (clean_text (cd_text cd)) "Sarcastic"
            ("Sarcastic (Reversed to "
               +:+ reversed_sentiment (PyStr.capitalize (label p)) +:+ ")")
            (cd_parent_text cd)) \/
  (is_sarcastic (cd_text cd) = false /\
   exists p,
     In p results /\
     ac = AnalyzedComment (cd_text cd) (PyStr.capitalize (label p))
            (PyStr.capitalize (label p)) (cd_parent_text cd)).

(** The comments that carry the marker. *)
Definition marked (structured_comments : list comment_data) : list comment_data :=
  List.filter (fun cd => is_sarcastic (cd_text cd)) structured_comments.

(** What one comment card puts on the page, when its category has an entry
    in [sentiment_map]. *)
Definition card_events (i : nat) (comment : analyzed_comment) : list event :=
  (if String.eqb (parent_text comment) "" then []
   else [EvReplyTo (PyStr.of_chars (take 200 (PyStr.chars (parent_text comment))))])
  ++ match sentiment_map (sentiment_category comment) with
     | Some emoji_color =>
         [EvCard (i + 1) emoji_color (display_label comment) (text comment)]
     | None => []
     end.

(** The cards of a list of comments, numbered from [i + 1] on. *)
Fixpoint cards_from (i : nat) (shown : list analyzed_comment) : list event :=
  match shown with
  | [] => []
  | comment :: rest => card_events i comment ++ cards_from (S i) rest
  end.

(** The number a card event shows. *)
Definition card_number (e : event) : option nat :=
  match e with
  | EvCard number _ _ _ => Some number
  | _ => None
  end.

(** The first comment of a list whose category has no entry in
    [sentiment_map]. *)
Definition first_unknown (shown : list analyzed_comment) : option analyzed_comment :=
  List.find (fun c => match sentiment_map (sentiment_category c) with
                      | Some _ => false
                      | None => true
                      end) shown.

(** * Properties *)

(** ** Python string operations *)

Example lower_ex : PyStr.lower "This Is GREAT /S" = "this is great /s".
Proof. reflexivity. Qed.

Example capitalize_ex : PyStr.capitalize "nEUTRAL" = "Neutral".
Proof. reflexivity. Qed.

Example strip_ex : PyStr.strip "  a b  " = "a b".
Proof. reflexivity. Qed.

Example slice_ex : PyStr.slice_to_minus2 "abc" = "a" /\ PyStr.slice_to_minus2 "a" = "".
Proof. split; reflexivity. Qed.

Example endswith_ex :
  PyStr.endswith "ok /s" "/s" = true /\ PyStr.endswith "s" "/s" = false.
Proof. split; reflexivity. Qed.

Module PyStrFacts.
Import PyStr.

Lemma chars_of_chars l : chars (of_chars l) = l.
Proof. apply list_ascii_of_string_of_list_ascii. Qed.

Lemma of_chars_chars s : of_chars (chars s) = s.
Proof. apply string_of_list_ascii_of_string. Qed.

Lemma chars_inj s t : chars s = chars t -> s = t.
Proof. intros E. rewrite <- (of_chars_chars s), <- (of_chars_chars t). now f_equal. Qed.

Lemma chars_app s t : chars (s +:+ t) = chars s ++ chars t.
Proof. induction s as [|c s IH]; simpl; [reflexivity | now rewrite <- IH]. Qed.

Ltac by_cases_on_char c :=
  destruct c as [[] [] [] [] [] [] [] []]; vm_compute; intros; try discriminate; auto.

Lemma lower_char_slash c : lower_char c = "/"%char -> c = "/"%char.
Proof. by_cases_on_char c. Qed.

Lemma lower_char_s c : lower_char c = "s"%char -> c = "s"%char \/ c = "S"%char.
Proof. by_cases_on_char c. Qed.

(** The test of line 86, read on the text itself: the last two characters
    are a slash and an [s] of either case. *)
Lemma endswith_lower_marker s :
  endswith (lower s) "/s" = true <->
  exists p c, chars s = p ++ ["/"%char; c] /\ (c = "s"%char \/ c = "S"%char).
Proof.
  unfold endswith, lower. rewrite chars_of_chars, length_map.
  change (chars "/s") with ["/"%char; "s"%char]. cbn [length].
  split.
  - intros H. apply andb_true_iff in H as [Hlen Heq].
    apply Nat.leb_le in Hlen. apply bool_decide_eq_true in Heq.
    rewrite skipn_map in Heq.
    pose proof (firstn_skipn (length (chars s) - 2) (chars s)) as Hsplit.
    destruct (drop (length (chars s) - 2) (chars s)) as [|a [|b [|? ?]]];
      simpl in Heq; try discriminate.
    injection Heq as Ha Hb.
    apply lower_char_slash in Ha. subst a.
    exists (take (length (chars s) - 2) (chars s)), b.
    split; [now rewrite Hsplit | now apply lower_char_s].
  - intros (p & c & E & Hc). rewrite E.
    rewrite length_app. cbn [length].
    apply andb_true_iff. split; [apply Nat.leb_le; lia|].
    apply bool_decide_eq_true.
    replace (length p + 2 - 2) with (length p + 0) by lia.
    rewrite map_app, skipn_app, skipn_all2 by (rewrite length_map; lia).
    rewrite length_map. replace (length p + 0 - length p) with 0 by lia.
    destruct Hc as [-> | ->]; reflexivity.
Qed.

Lemma slice_to_minus2_app p a b :
  slice_to_minus2 (of_chars (p ++ [a; b])) = of_chars p.
Proof.
  unfold slice_to_minus2. rewrite chars_of_chars, length_app. cbn [length].
  replace (length p + 2 - 2) with (length p + 0) by lia.
  now rewrite take_app_add, app_nil_r.
Qed.

Lemma slice_to_minus2_short s : String.length s < 2 -> slice_to_minus2 s = "".
Proof.
  unfold slice_to_minus2, chars. intros H.
  destruct s as [|a [|b s]]; simpl in *; try reflexivity; lia.
Qed.

(** *** [strip] *)

Lemma lstrip_chars_split l :
  exists ws, l = ws ++ lstrip_chars l /\ Forall (fun c => is_space c = true) ws.
Proof.
  induction l as [|c l (ws & E & Hws)]; simpl.
  - exists []. split; [reflexivity | constructor].
  - destruct (is_space c) eqn:Hc.
    + exists (c :: ws). split; [simpl; now f_equal | now constructor].
    + exists []. split; [reflexivity | constructor].
Qed.

Lemma lstrip_chars_head l c r : lstrip_chars l = c :: r -> is_space c = false.
Proof.
  induction l as [|d l IH]; simpl; [discriminate|].
  destruct (is_space d) eqn:Hd; [exact IH|].
  intros [= -> _]. exact Hd.
Qed.

Lemma lstrip_chars_spaces ws :
  Forall (fun c => is_space c = true) ws -> lstrip_chars ws = [].
Proof. induction 1 as [|c ws Hc _ IH]; simpl; [reflexivity | now rewrite Hc]. Qed.

Lemma lstrip_chars_id l :
  (forall c r, l = c :: r -> is_space c = false) -> lstrip_chars l = l.
Proof.
  destruct l as [|c r]; intros H; simpl; [reflexivity|].
  now rewrite (H c r eq_refl).
Qed.

Lemma rstrip_chars_split l :
  exists ws, l = rstrip_chars l ++ ws /\ Forall (fun c => is_space c = true) ws.
Proof.
  unfold rstrip_chars.
  destruct (lstrip_chars_split (rev l)) as (ws & E & Hws).
  exists (rev ws). split.
  - rewrite <- rev_app_distr, <- E. now rewrite rev_involutive.
  - now apply Forall_rev.
Qed.

Lemma rstrip_chars_last l r c : rstrip_chars l = r ++ [c] -> is_space c = false.
Proof.
  unfold rstrip_chars. intros E.
  apply (f_equal (@rev ascii)) in E. rewrite rev_involutive, rev_app_distr in E.
  simpl in E. now apply lstrip_chars_head in E.
Qed.

(** [rstrip] leaves the first character of what remains where it was. *)
Lemma rstrip_chars_head l c r :
  rstrip_chars l = c :: r -> exists r', l = c :: r'.
Proof.
  intros E. destruct (rstrip_chars_split l) as (ws & El & _).
  rewrite E in El. simpl in El. eauto.
Qed.

(** What [strip] returns: the text between a run of leading and a run of
    trailing whitespace, itself neither starting nor ending with
    whitespace. *)
Lemma strip_spec s :
  exists ws1 ws2,
    chars s = ws1 ++ chars (strip s) ++ ws2 /\
    Forall (fun c => is_space c = true) ws1 /\
    Forall (fun c => is_space c = true) ws2 /\
    (forall c r, chars (strip s) = c :: r -> is_space c = false) /\
    (forall r c, chars (strip s) = r ++ [c] -> is_space c = false).
Proof.
  unfold strip. rewrite chars_of_chars.
  destruct (lstrip_chars_split (chars s)) as (ws1 & E1 & H1).
  destruct (rstrip_chars_split (lstrip_chars (chars s))) as (ws2 & E2 & H2).
  exists ws1, ws2. repeat split; try assumption.
  - now rewrite <- E2.
  - intros c r E. destruct (rstrip_chars_head _ _ _ E) as (r' & E').
    now apply lstrip_chars_head in E'.
  - intros r c E. now apply rstrip_chars_last in E.
Qed.

Lemma strip_spaces ws :
  Forall (fun c => is_space c = true) ws -> strip (of_chars ws) = "".
Proof.
  intros H. unfold strip. rewrite chars_of_chars.
  now rewrite (lstrip_chars_spaces ws H).
Qed.

End PyStrFacts.

(** ** The monad *)

Lemma bind_ok {A B} (m : M A) (f : A -> M B) w a w' :
  m w = (Ok a, w') -> (m ≫= f) w = f a w'.
Proof. intros E. unfold mbind, M_bind. now rewrite E. Qed.

Lemma bind_raise {A B} (m : M A) (f : A -> M B) w e w' :
  m w = (Raise e, w') -> (m ≫= f) w = (Raise e, w').
Proof. intros E. unfold mbind, M_bind. now rewrite E. Qed.

Lemma bind_inv_ok {A B} (m : M A) (f : A -> M B) w b w' :
  (m ≫= f) w = (Ok b, w') -> exists a w1, m w = (Ok a, w1) /\ f a w1 = (Ok b, w').
Proof.
  unfold mbind, M_bind. destruct (m w) as [[a|e] w1]; intros E.
  - eauto.
  - discriminate.
Qed.

Lemma emit_eq e w : emit e w = (Ok tt, World (session w) (trace w ++ [e])).
Proof. reflexivity. Qed.

(** ** The loop body *)

Section AnalyzeComment.

Variable sentiment_pipeline : pipeline_input -> list prediction.

(** A sarcastic comment: one single-item call on the cleaned text, whose
    first result decides the label; [results] and [i] are not looked at. *)
Lemma analyze_comment_sarcastic results i cd w :
  is_sarcastic (cd_text cd) = true ->
  analyze_comment sentiment_pipeline results i cd w =
  (match sentiment_pipeline (Single (clean_text (cd_text cd))) with
   | p :: _ =>
       Ok (AnalyzedComment (clean_text (cd_text cd)) "Sarcastic"
             ("Sarcastic (Reversed to "
                +:+ reversed_sentiment (PyStr.capitalize (label p)) +:+ ")")
             (cd_parent_text cd))
   | [] => Raise IndexError
   end,
   World (session w)
     (trace w ++ [EvPipeline (Single (clean_text (cd_text cd)))])).
Proof.
  intros H. unfold analyze_comment, is_sarcastic in *. rewrite H.
  unfold call_pipeline, index, clean_text, mbind, M_bind, mret, M_ret, emit, raise.
  cbn [session trace].
  now destruct (sentiment_pipeline _) as [|p rest].
Qed.

(** Any other comment: no call, the batched result at its index. *)
Lemma analyze_comment_plain results i cd w :
  is_sarcastic (cd_text cd) = false ->
  analyze_comment sentiment_pipeline results i cd w =
  (match results !! i with
   | Some p =>
       Ok (AnalyzedComment (cd_text cd) (PyStr.capitalize (label p))
             (PyStr.capitalize (label p)) (cd_parent_text cd))
   | None => Raise IndexError
   end, w).
Proof.
  intros H. unfold analyze_comment, is_sarcastic in *. rewrite H.
  unfold index, mbind, M_bind, mret, M_ret, raise.
  now destruct (results !! i).
Qed.

End AnalyzeComment.

(** ** The sample classifier keeps to the interface *)

Lemma sample_label_base s : base_label (PyStr.capitalize (Sample.sample_label s)).
Proof.
  unfold Sample.sample_label, base_label.
  destruct (PyStr.chars s) as [|c r]; [now (right; right)|].
  destruct (PyStr.is_upper c); [now left|].
  destruct (PyStr.is_lower c); [now (right; left) | now (right; right)].
Qed.

Lemma sample_labels_ok : labels_ok Sample.pipeline.
Proof.
  intros [s|l] p Hin; simpl in Hin.
  - destruct Hin as [<- | []]. apply sample_label_base.
  - apply in_map_iff in Hin as (s & <- & _). apply sample_label_base.
Qed.

Lemma sample_shape_ok : shape_ok Sample.pipeline.
Proof. split; intros; simpl; [reflexivity | apply length_map]. Qed.

(** ** The sarcasm rule *)

Lemma base_label_not_sarcastic s : base_label s -> s <> "Sarcastic".
Proof. intros [-> | [-> | ->]]; discriminate. Qed.

Lemma base_label_category s : base_label s -> category s.
Proof. unfold base_label, category. tauto. Qed.

(** What line 88 keeps: the text before the marker, without the whitespace
    around it. *)
Lemma clean_text_spec comment_body p a b :
  PyStr.chars comment_body = p ++ [a; b] ->
  exists ws1 ws2,
    p = ws1 ++ PyStr.chars (clean_text comment_body) ++ ws2 /\
    whitespace ws1 /\ whitespace ws2 /\ trimmed (clean_text comment_body).
Proof.
  intros E. unfold clean_text.
  rewrite <- (PyStrFacts.of_chars_chars comment_body), E.
  rewrite PyStrFacts.slice_to_minus2_app.
  destruct (PyStrFacts.strip_spec (PyStr.of_chars p))
    as (ws1 & ws2 & Hp & H1 & H2 & Hh & Hl).
  rewrite PyStrFacts.chars_of_chars in Hp.
  exists ws1, ws2. repeat split; assumption.
Qed.

Lemma clean_text_bare ws a b :
  whitespace ws -> clean_text (PyStr.of_chars (ws ++ [a; b])) = "".
Proof.
  intros H. unfold clean_text.
  rewrite PyStrFacts.slice_to_minus2_app. now apply PyStrFacts.strip_spaces.
Qed.

Section SarcasmRule.

Variable sentiment_pipeline : pipeline_input -> list prediction.

(** C2. A comment is categorised Sarcastic exactly when its lower-cased
    text ends with the marker "/s", that is when its last two characters
    are a slash and an s of either case; then the display text is the text
    without these two characters and without the whitespace around what
    remains.  "This is great /s" is sarcastic and displays as
    "This is great". *)
Theorem sarcasm_detection comments_to_analyze i cd w :
  labels_ok sentiment_pipeline ->
  let comment_body := cd_text cd in
  let results := sentiment_pipeline (Batch comments_to_analyze) in
  (is_sarcastic comment_body = true <->
     exists p c, PyStr.chars comment_body = p ++ ["/"%char; c] /\
                 (c = "s"%char \/ c = "S"%char)) /\
  (forall ac w',
     analyze_comment sentiment_pipeline results i cd w = (Ok ac, w') ->
     (sentiment_category ac = "Sarcastic" <-> is_sarcastic comment_body = true) /\
     (is_sarcastic comment_body = true ->
        text ac = PyStr.strip (PyStr.slice_to_minus2 comment_body) /\
        trimmed (text ac) /\
        exists ws1 ws2 c,
          PyStr.chars comment_body
            = ws1 ++ PyStr.chars (text ac) ++ ws2 ++ ["/"%char; c] /\
          whitespace ws1 /\ whitespace ws2)) /\
  (is_sarcastic comment_body = true ->
     sentiment_pipeline (Single (clean_text comment_body)) <> [] ->
     exists ac w',
       analyze_comment sentiment_pipeline results i cd w = (Ok ac, w') /\
       sentiment_category ac = "Sarcastic") /\
  (is_sarcastic "This is great /s" = true /\
   clean_text "This is great /s" = "This is great").
Proof.
  intros Hlab comment_body results. subst comment_body.
  split; [apply PyStrFacts.endswith_lower_marker|].
  split; [|split; [|split; reflexivity]].
  - intros ac w' Hrun.
    destruct (is_sarcastic (cd_text cd)) eqn:Hs.
    + rewrite analyze_comment_sarcastic in Hrun by assumption.
      destruct (sentiment_pipeline (Single _)) as [|p rest]; [discriminate|].
      injection Hrun as <- _. cbn [sentiment_category text].
      split; [tauto|]. intros _. split; [reflexivity|].
      apply PyStrFacts.endswith_lower_marker in Hs as (q & c & E & _).
      destruct (clean_text_spec _ _ _ _ E) as (ws1 & ws2 & Hq & H1 & H2 & Ht).
      split; [exact Ht|]. exists ws1, ws2, c.
      split; [|split; assumption].
      rewrite E, Hq. now rewrite <- !app_assoc.
    + rewrite analyze_comment_plain in Hrun by assumption.
      destruct (results !! i) as [p|] eqn:Hp; [|discriminate].
      injection Hrun as <- _. cbn [sentiment_category text].
      split; [|discriminate].
      split; [|discriminate]. intros Hcat. exfalso.
      apply (base_label_not_sarcastic _ (Hlab _ p (proj1 (list_elem_of_In _ _) (list_elem_of_lookup_2 _ _ _ Hp))) Hcat).
  - intros Hs Hne. rewrite analyze_comment_sarcastic by assumption.
    destruct (sentiment_pipeline (Single _)) as [|p rest]; [contradiction|].
    eauto.
Qed.

End SarcasmRule.

Lemma reversed_sentiment_cases s :
  (s = "Positive" /\ reversed_sentiment s = "Negative") \/
  (s = "Negative" /\ reversed_sentiment s = "Positive") \/
  (s <> "Positive" /\ s <> "Negative" /\ reversed_sentiment s = "Negative").
Proof.
  unfold reversed_sentiment.
  destruct (String.eqb_spec s "Positive") as [-> | Hp]; [now left|].
  destruct (String.eqb_spec s "Negative") as [-> | Hn]; [now (right; left)|].
  now (right; right).
Qed.

Section SarcasmOverride.

Variable sentiment_pipeline : pipeline_input -> list prediction.

(** C3. The inversion is a fixed table on the underlying label: Positive
    gives Negative, Negative gives Positive, Neutral gives Negative and so
    not itself.  For a sarcastic comment the label shown is built from the
    table applied to the capitalised label of the single-item call,
    whatever the text. *)
Theorem inversion_table results i cd w p rest :
  is_sarcastic (cd_text cd) = true ->
  sentiment_pipeline (Single (clean_text (cd_text cd))) = p :: rest ->
  let original_sentiment := PyStr.capitalize (label p) in
  (exists ac w',
     analyze_comment sentiment_pipeline results i cd w = (Ok ac, w') /\
     display_label ac
       = "Sarcastic (Reversed to " +:+ reversed_sentiment original_sentiment +:+ ")" /\
     (original_sentiment = "Positive" ->
        display_label ac = "Sarcastic (Reversed to Negative)") /\
     (original_sentiment = "Negative" ->
        display_label ac = "Sarcastic (Reversed to Positive)") /\
     (original_sentiment = "Neutral" ->
        display_label ac = "Sarcastic (Reversed to Negative)")) /\
  reversed_sentiment "Positive" = "Negative" /\
  reversed_sentiment "Negative" = "Positive" /\
  reversed_sentiment "Neutral" = "Negative" /\
  reversed_sentiment "Neutral" <> "Neutral".
Proof.
  intros Hs Hp original_sentiment.
  split; [|repeat split; discriminate].
  rewrite analyze_comment_sarcastic, Hp by assumption.
  eexists _, _. split; [reflexivity|]. cbn [display_label].
  fold original_sentiment.
  split; [reflexivity|].
  repeat split; intros ->; reflexivity.
Qed.

(** C9. For a sarcastic comment the sentiment named in the label is
    Negative or Positive and nothing else: the table sends every label
    other than Positive and Negative, the documented Neutral as well as
    any other string, to Negative, so the label never reads
    "Reversed to Neutral". *)
Theorem reversed_never_neutral results i cd w ac w' :
  is_sarcastic (cd_text cd) = true ->
  analyze_comment sentiment_pipeline results i cd w = (Ok ac, w') ->
  (exists p rest,
     sentiment_pipeline (Single (clean_text (cd_text cd))) = p :: rest /\
     display_label ac
       = "Sarcastic (Reversed to "
           +:+ reversed_sentiment (PyStr.capitalize (label p)) +:+ ")" /\
     (PyStr.capitalize (label p) <> "Positive" ->
      PyStr.capitalize (label p) <> "Negative" ->
      display_label ac = "Sarcastic (Reversed to Negative)")) /\
  (display_label ac = "Sarcastic (Reversed to Negative)" \/
   display_label ac = "Sarcastic (Reversed to Positive)") /\
  display_label ac <> "Sarcastic (Reversed to Neutral)" /\
  (forall s, s <> "Positive" -> s <> "Negative" -> reversed_sentiment s = "Negative") /\
  (forall s, reversed_sentiment s = "Negative" \/ reversed_sentiment s = "Positive").
Proof.
  intros Hs Hrun.
  rewrite analyze_comment_sarcastic in Hrun by assumption.
  destruct (sentiment_pipeline (Single _)) as [|p rest]; [discriminate|].
  injection Hrun as <- _. cbn [display_label].
  assert (Htab : forall s, s <> "Positive" -> s <> "Negative" ->
                           reversed_sentiment s = "Negative").
  { intros s H1 H2.
    destruct (reversed_sentiment_cases s) as [[-> _] | [[-> _] | (_ & _ & E)]];
      [contradiction | contradiction | exact E]. }
  assert (Hbin : forall s, reversed_sentiment s = "Negative" \/
                           reversed_sentiment s = "Positive").
  { intros s.
    destruct (reversed_sentiment_cases s) as [[_ E] | [[_ E] | (_ & _ & E)]];
      rewrite E; auto. }
  split; [|split; [|split; [|split; assumption]]].
  - exists p, rest. split; [reflexivity|]. split; [reflexivity|].
    intros H1 H2. now rewrite (Htab _ H1 H2).
  - destruct (Hbin (PyStr.capitalize (label p))) as [-> | ->]; auto.
  - destruct (Hbin (PyStr.capitalize (label p))) as [-> | ->]; discriminate.
Qed.

(** C10. Nothing stops a comment that is the marker alone, or the marker
    after whitespace only: it is categorised Sarcastic, its display text is
    the empty string, and the pipeline is called on that empty string. *)
Theorem bare_marker_processed results i cd ws c w :
  whitespace ws ->
  c = "s"%char \/ c = "S"%char ->
  cd_text cd = PyStr.of_chars (ws ++ ["/"%char; c]) ->
  is_sarcastic (cd_text cd) = true /\
  clean_text (cd_text cd) = "" /\
  analyze_comment sentiment_pipeline results i cd w =
  (match sentiment_pipeline (Single "") with
   | p :: _ =>
       Ok (AnalyzedComment "" "Sarcastic"
             ("Sarcastic (Reversed to "
                +:+ reversed_sentiment (PyStr.capitalize (label p)) +:+ ")")
             (cd_parent_text cd))
   | [] => Raise IndexError
   end,
   World (session w) (trace w ++ [EvPipeline (Single "")])) /\
  (forall comment,
     PyStr.strip (body comment) = PyStr.of_chars ["/"%char; c] ->
     cd_text (structure_comment comment) = PyStr.of_chars ["/"%char; c] /\
     (analyze_comment sentiment_pipeline results i (structure_comment comment) w).2
     = World (session w) (trace w ++ [EvPipeline (Single "")])).
Proof.
  intros Hws Hc E.
  assert (Hs : forall t q, t = PyStr.of_chars (q ++ ["/"%char; c]) ->
                           is_sarcastic t = true).
  { intros t q ->. apply PyStrFacts.endswith_lower_marker.
    exists q, c. now rewrite PyStrFacts.chars_of_chars. }
  assert (Hclean : clean_text (cd_text cd) = "").
  { rewrite E. now apply clean_text_bare. }
  split; [now apply (Hs _ ws)|]. split; [exact Hclean|].
  split.
  - rewrite analyze_comment_sarcastic by now apply (Hs _ ws).
    now rewrite Hclean.
  - intros comment Hb. split; [exact Hb|].
    rewrite analyze_comment_sarcastic by now apply (Hs _ []).
    cbn [snd]. change (cd_text (structure_comment comment))
      with (PyStr.strip (body comment)).
    rewrite Hb.
    pose proof (clean_text_bare [] "/"%char c (List.Forall_nil _)) as Hnil.
    cbn [app] in Hnil. now rewrite Hnil.
Qed.

End SarcasmOverride.

(** ** The two loops and [analyze_comments] *)

Lemma count_cons (x s : string) (l : list string) :
  PyStr.count x (s :: l) = (if String.eqb x s then 1 else 0) + PyStr.count x l.
Proof. unfold PyStr.count. cbn [List.filter]. now destruct (String.eqb x s). Qed.

Ltac eval_string_eqb :=
  repeat match goal with
    | |- context [String.eqb ?a ?b] =>
        let v := eval vm_compute in (String.eqb a b) in
        change (String.eqb a b) with v
    end.

Lemma count_categories (sentiments : list string) :
  Forall category sentiments ->
  PyStr.count "Positive" sentiments + PyStr.count "Negative" sentiments
  + PyStr.count "Neutral" sentiments + PyStr.count "Sarcastic" sentiments
  = length sentiments.
Proof.
  induction 1 as [|s l Hs _ IH]; [reflexivity|].
  rewrite !count_cons. cbn [length].
  destruct Hs as [-> | [-> | [-> | ->]]]; eval_string_eqb; cbv beta iota; lia.
Qed.

Lemma count_filter (x : string) (l : list analyzed_comment) :
  PyStr.count x (map sentiment_category l)
  = length (List.filter (fun c => String.eqb (sentiment_category c) x) l).
Proof.
  unfold PyStr.count. induction l as [|c l IH]; [reflexivity|].
  cbn [map List.filter]. rewrite (String.eqb_sym x).
  destruct (String.eqb (sentiment_category c) x); cbn [length]; now rewrite IH.
Qed.

Section Analysis.

Variable reddit_comments : string -> list praw_comment.
Variable sentiment_pipeline : pipeline_input -> list prediction.

Lemma collect_comments_eq post_ids comments_to_analyze structured_comments w :
  collect_comments reddit_comments post_ids comments_to_analyze structured_comments w
  = (Ok (comments_to_analyze ++ map cd_text (fetched reddit_comments post_ids),
         structured_comments ++ fetched reddit_comments post_ids),
     World (session w) (trace w ++ map EvFetch post_ids)).
Proof.
  revert comments_to_analyze structured_comments w.
  induction post_ids as [|id rest IH]; intros cta sc w.
  - cbn [collect_comments fetched flat_map map]. rewrite !app_nil_r.
    now destruct w.
  - cbn [collect_comments]. erewrite bind_ok by apply emit_eq.
    rewrite IH. cbn [session trace fetched flat_map map].
    fold (fetched reddit_comments rest).
    now rewrite map_app, <- !app_assoc.
Qed.

(** The world after the loop body does not depend on how it ended. *)
Lemma analyze_comment_world results i cd w :
  (analyze_comment sentiment_pipeline results i cd w).2
  = World (session w) (trace w ++ single_calls [cd]).
Proof.
  unfold single_calls. cbn [flat_map]. rewrite app_nil_r.
  destruct (is_sarcastic (cd_text cd)) eqn:Hs.
  - now rewrite analyze_comment_sarcastic.
  - rewrite analyze_comment_plain by assumption. cbn [snd].
    rewrite app_nil_r. now destruct w.
Qed.

(** The outcome of the loop body does not depend on the world. *)
Lemma analyze_comment_outcome results i cd w1 w2 :
  (analyze_comment sentiment_pipeline results i cd w1).1
  = (analyze_comment sentiment_pipeline results i cd w2).1.
Proof.
  destruct (is_sarcastic (cd_text cd)) eqn:Hs.
  - now rewrite !analyze_comment_sarcastic.
  - now rewrite !analyze_comment_plain.
Qed.

Lemma single_calls_cons cd l : single_calls (cd :: l) = single_calls [cd] ++ single_calls l.
Proof. unfold single_calls. cbn [flat_map]. now rewrite app_nil_r. Qed.

(** A loop that ends normally has handled every comment, in order, by the
    loop body at the comment's index, and has made the single-item calls
    of the sarcastic ones. *)
Lemma analyze_loop_ok results i structured_comments w analyzed w' :
  analyze_loop sentiment_pipeline results i structured_comments w = (Ok analyzed, w') ->
  w' = World (session w) (trace w ++ single_calls structured_comments) /\
  length analyzed = length structured_comments /\
  forall k cd, structured_comments !! k = Some cd ->
    exists ac, analyzed !! k = Some ac /\
      forall w0, (analyze_comment sentiment_pipeline results (i + k) cd w0).1 = Ok ac.
Proof.
  revert i w analyzed w'.
  induction structured_comments as [|cd rest IH]; intros i w analyzed w' Hrun.
  - injection Hrun as <- <-. cbn [single_calls flat_map]. rewrite app_nil_r.
    split; [now destruct w|]. split; [reflexivity|]. intros k c Hk. discriminate.
  - cbn [analyze_loop] in Hrun.
    apply bind_inv_ok in Hrun as (ac & w1 & Hac & Hrun).
    apply bind_inv_ok in Hrun as (acs & w2 & Hacs & Hret).
    injection Hret as <- <-.
    apply IH in Hacs as (-> & Hlen & Hall).
    pose proof (analyze_comment_world results i cd w) as Hw.
    rewrite Hac in Hw. cbn [snd] in Hw. subst w1. cbn [session trace].
    split; [now rewrite (single_calls_cons cd rest), app_assoc|].
    split; [cbn [length]; now rewrite Hlen|].
    intros [|k] c Hk.
    + injection Hk as <-. exists ac. split; [reflexivity|]. intros w0.
      rewrite Nat.add_0_r, (analyze_comment_outcome _ _ _ w0 w). now rewrite Hac.
    + destruct (Hall k c Hk) as (ac' & Hk' & Hrun'). exists ac'.
      split; [exact Hk'|]. intros w0.
      replace (i + S k) with (S i + k) by lia. apply Hrun'.
Qed.

(** With one result per text the loop ends normally. *)
Lemma analyze_loop_total results i structured_comments w :
  (forall s, sentiment_pipeline (Single s) <> []) ->
  i + length structured_comments <= length results ->
  exists analyzed w',
    analyze_loop sentiment_pipeline results i structured_comments w = (Ok analyzed, w').
Proof.
  intros Hne. revert i w.
  induction structured_comments as [|cd rest IH]; intros i w Hlen.
  - eexists _, _. reflexivity.
  - cbn [length] in Hlen. cbn [analyze_loop].
    assert (exists ac w1,
               analyze_comment sentiment_pipeline results i cd w = (Ok ac, w1))
      as (ac & w1 & Hac).
    { destruct (is_sarcastic (cd_text cd)) eqn:Hs.
      - rewrite analyze_comment_sarcastic by assumption.
        specialize (Hne (clean_text (cd_text cd))).
        destruct (sentiment_pipeline (Single _)); [contradiction | eauto].
      - rewrite analyze_comment_plain by assumption.
        destruct (lookup_lt_is_Some_2 results i ltac:(lia)) as [p Hp].
        rewrite Hp. eauto. }
    destruct (IH (S i) w1 ltac:(lia)) as (acs & w2 & Hacs).
    erewrite bind_ok by exact Hac. erewrite bind_ok by exact Hacs.
    eexists _, _. reflexivity.
Qed.

(** [analyze_comments], loops resolved. *)
Lemma analyze_comments_eq post_ids w :
  analyze_comments reddit_comments sentiment_pipeline post_ids w =
  let structured_comments := fetched reddit_comments post_ids in
  let comments_to_analyze := map cd_text structured_comments in
  let w1 := World (session w) (trace w ++ EvAnalyze post_ids :: map EvFetch post_ids) in
  match structured_comments with
  | [] => (Ok None, w1)
  | _ :: _ =>
      match analyze_loop sentiment_pipeline
              (sentiment_pipeline (Batch comments_to_analyze)) 0 structured_comments
              (World (session w) (trace w1 ++ [EvPipeline (Batch comments_to_analyze)]))
      with
      | (Ok analyzed_comments, w2) => (Ok (Some (summarize analyzed_comments)), w2)
      | (Raise e, w2) => (Raise e, w2)
      end
  end.
Proof.
  unfold analyze_comments. erewrite bind_ok by apply emit_eq.
  erewrite bind_ok by apply collect_comments_eq.
  cbn [fst snd app session trace]. rewrite <- app_assoc. cbn [app].
  destruct (fetched reddit_comments post_ids) as [|cd rest]; [reflexivity|].
  cbn [map truthy negb]. unfold call_pipeline.
  erewrite bind_ok; [|erewrite bind_ok by apply emit_eq; reflexivity].
  cbn [session trace]. unfold mbind at 1, M_bind at 1.
  now destruct (analyze_loop _ _ _ _ _) as [[acs|e] w2].
Qed.

Lemma fetched_nil post_ids :
  fetched reddit_comments post_ids = [] <->
  forall id, In id post_ids -> reddit_comments id = [].
Proof.
  unfold fetched. induction post_ids as [|id rest IH]; cbn [flat_map].
  - split; [intros _ ? [] | reflexivity].
  - split.
    + intros H. apply app_eq_nil in H as [H1 H2].
      intros id' [<- | Hin]; [now apply map_eq_nil in H1 | now apply IH].
    + intros H. rewrite (H id) by now left. cbn [map app].
      apply IH. intros id' Hin. apply H. now right.
Qed.

End Analysis.

Section AnalysisResult.

Variable reddit_comments : string -> list praw_comment.
Variable sentiment_pipeline : pipeline_input -> list prediction.

(** The category the loop body assigns when the batched labels are those
    of a classifier that keeps to its three labels. *)
Lemma analyze_comment_category results i cd w ac :
  Forall (fun p => base_label (PyStr.capitalize (label p))) results ->
  (analyze_comment sentiment_pipeline results i cd w).1 = Ok ac ->
  category (sentiment_category ac).
Proof.
  intros Hres Hrun.
  destruct (is_sarcastic (cd_text cd)) eqn:Hs.
  - rewrite analyze_comment_sarcastic in Hrun by assumption. cbn [fst] in Hrun.
    destruct (sentiment_pipeline (Single _)); [discriminate|].
    injection Hrun as <-. cbn. unfold category. tauto.
  - rewrite analyze_comment_plain in Hrun by assumption. cbn [fst] in Hrun.
    destruct (results !! i) as [p|] eqn:Hp; [|discriminate].
    injection Hrun as <-. cbn. apply base_label_category.
    rewrite Forall_forall in Hres. apply Hres.
    eapply list_elem_of_lookup_2, Hp.
Qed.

(** A result is the summary of a non-empty list, each entry of which the
    loop body made of the comment at the same place. *)
Lemma analyze_comments_some post_ids w r w' :
  analyze_comments reddit_comments sentiment_pipeline post_ids w = (Ok (Some r), w') ->
  let structured_comments := fetched reddit_comments post_ids in
  let results := sentiment_pipeline (Batch (map cd_text structured_comments)) in
  r = summarize (comments r) /\
  length (comments r) = length structured_comments /\
  structured_comments <> [] /\
  forall k cd, structured_comments !! k = Some cd ->
    exists ac, comments r !! k = Some ac /\
      forall w0, (analyze_comment sentiment_pipeline results k cd w0).1 = Ok ac.
Proof.
  rewrite analyze_comments_eq. cbv zeta.
  destruct (fetched reddit_comments post_ids) as [|cd0 rest] eqn:Hf; [discriminate|].
  destruct (analyze_loop _ _ _ _ _) as [[acs|e] w2] eqn:Hloop; [|discriminate].
  intros [= <- <-]. cbn [comments summarize].
  apply analyze_loop_ok in Hloop as (_ & Hlen & Hall).
  split; [reflexivity|]. split; [exact Hlen|]. split; [discriminate|].
  exact Hall.
Qed.

(** C1. Every comment of a result of analyze_comments carries one of the
    four categories Positive, Negative, Neutral, Sarcastic; total_comments
    is the length of the comment list, and the four category counts add up
    to it.  The classifier is taken to return its three labels only; with
    one result per text a run raises no exception. *)
Theorem counts_invariant post_ids w :
  labels_ok sentiment_pipeline ->
  (forall r w',
     analyze_comments reddit_comments sentiment_pipeline post_ids w = (Ok (Some r), w') ->
     Forall (fun c => category (sentiment_category c)) (comments r) /\
     total_comments (counts r) = length (comments r) /\
     n_positive (counts r) + n_negative (counts r)
     + n_neutral (counts r) + n_sarcastic (counts r)
     = total_comments (counts r)) /\
  (shape_ok sentiment_pipeline ->
   exists r w',
     analyze_comments reddit_comments sentiment_pipeline post_ids w = (Ok r, w')).
Proof.
  intros Hlab. split.
  - intros r w' Hrun.
    apply analyze_comments_some in Hrun as (Hr & Hlen & _ & Hall).
    assert (Hcat : Forall (fun c => category (sentiment_category c)) (comments r)).
    { apply Forall_lookup_2. intros k ac Hk.
      destruct (lookup_lt_is_Some_2 (fetched reddit_comments post_ids) k) as [cd Hcd].
      { rewrite <- Hlen. eapply lookup_lt_Some, Hk. }
      destruct (Hall k cd Hcd) as (ac' & Hk' & Hbody).
      rewrite Hk in Hk'. injection Hk' as <-.
      eapply (analyze_comment_category _ k cd w); [|apply Hbody].
      apply Forall_forall. intros p Hp. eapply Hlab, list_elem_of_In, Hp. }
    split; [exact Hcat|]. rewrite Hr. cbn [counts comments summarize
      total_comments n_positive n_negative n_neutral n_sarcastic].
    split; [reflexivity|].
    rewrite <- (length_map sentiment_category (comments r)).
    apply count_categories. now apply Forall_map.
  - intros [Hsingle Hbatch]. rewrite analyze_comments_eq. cbv zeta.
    destruct (fetched reddit_comments post_ids) as [|cd0 rest] eqn:Hf; [eauto|].
    edestruct (analyze_loop_total sentiment_pipeline
                 (sentiment_pipeline (Batch (map cd_text (cd0 :: rest))))
                 0 (cd0 :: rest)) as (acs & w2 & Hloop).
    + intros s E. specialize (Hsingle s). now rewrite E in Hsingle.
    + rewrite Hbatch, length_map. lia.
    + rewrite Hloop. eauto.
Qed.

(** C6. When the selected posts have no comments, analyze_comments returns
    None, after fetching and without calling the classifier; it returns
    None in no other case, and a result it does return never has an empty
    comment list.  One post without comments, selected alone, gives
    None. *)
Theorem empty_result_marker post_ids w :
  ((forall id, In id post_ids -> reddit_comments id = []) ->
   analyze_comments reddit_comments sentiment_pipeline post_ids w
   = (Ok None,
      World (session w) (trace w ++ EvAnalyze post_ids :: map EvFetch post_ids))) /\
  ((analyze_comments reddit_comments sentiment_pipeline post_ids w).1 = Ok None ->
   forall id, In id post_ids -> reddit_comments id = []) /\
  (forall r,
     (analyze_comments reddit_comments sentiment_pipeline post_ids w).1 = Ok (Some r) ->
     comments r <> []) /\
  (forall id,
     reddit_comments id = [] ->
     (analyze_comments reddit_comments sentiment_pipeline [id] w).1 = Ok None).
Proof.
  assert (Hnone : forall ids,
             (forall id, In id ids -> reddit_comments id = []) ->
             analyze_comments reddit_comments sentiment_pipeline ids w
             = (Ok None,
                World (session w) (trace w ++ EvAnalyze ids :: map EvFetch ids))).
  { intros ids H. rewrite analyze_comments_eq. cbv zeta.
    now rewrite (proj2 (fetched_nil reddit_comments ids) H). }
  split; [apply Hnone|]. split; [|split].
  - rewrite analyze_comments_eq. cbv zeta.
    destruct (fetched reddit_comments post_ids) as [|cd0 rest] eqn:Hf.
    + intros _. now apply fetched_nil.
    + destruct (analyze_loop _ _ _ _ _) as [[acs|e] w2]; discriminate.
  - intros r Hrun.
    destruct (analyze_comments _ _ _ _) as [o w'] eqn:E. cbn [fst] in Hrun. subst o.
    apply analyze_comments_some in E as (_ & Hlen & Hne & _).
    intros Hnil. rewrite Hnil in Hlen. cbn [length] in Hlen.
    symmetry in Hlen. apply length_zero_iff_nil in Hlen. contradiction.
  - intros id Hid. rewrite Hnone; [reflexivity|]. now intros id' [<- | []].
Qed.

End AnalysisResult.

(** ** The filter *)

Lemma filter_sublist {A} (f : A -> bool) (l : list A) : sublist (List.filter f l) l.
Proof.
  induction l as [|x l IH]; cbn [List.filter]; [constructor|].
  destruct (f x); now constructor.
Qed.

(** C4. The choice "All" shows the analysed list as it is.  Any other choice
    C shows the comments of category C and no others, all of them, in their
    original order, and for each of the four categories their number is the
    count the summary holds for C. *)
Theorem filter_order_preserving (all_comments : list analyzed_comment) :
  comments_to_display "All" all_comments = all_comments /\
  (forall C, C <> "All" ->
     let shown := comments_to_display C all_comments in
     Forall (fun c => sentiment_category c = C) shown /\
     sublist shown all_comments /\
     (forall c, In c all_comments -> sentiment_category c = C -> In c shown) /\
     length shown = PyStr.count C (map sentiment_category all_comments)) /\
  (forall C, category C ->
     count_of C (counts (summarize all_comments))
     = Some (length (comments_to_display C all_comments))).
Proof.
  split; [reflexivity|]. split.
  - intros C HC shown. subst shown. unfold comments_to_display.
    destruct (String.eqb_spec C "All") as [-> | _]; [contradiction|].
    split; [|split; [|split]].
    + apply List.Forall_forall. intros c Hc.
      apply filter_In in Hc as [_ Hc]. now apply String.eqb_eq in Hc.
    + apply filter_sublist.
    + intros c Hin Hc. apply filter_In. split; [exact Hin|].
      now apply String.eqb_eq.
    + symmetry. apply count_filter.
  - intros C HC. unfold comments_to_display, summarize, count_of.
    cbn [counts n_positive n_negative n_neutral n_sarcastic].
    rewrite !count_filter.
    destruct HC as [-> | [-> | [-> | ->]]]; reflexivity.
Qed.

(** ** Computations that only write to the page *)

Lemma page_only_ret {A} (a : A) : page_only (mret a).
Proof.
  intros w. split; [reflexivity|]. exists []. split; [|constructor].
  cbn. now rewrite app_nil_r.
Qed.

Lemma page_only_raise {A} (e : exn) : page_only (@raise A e).
Proof.
  intros w. split; [reflexivity|]. exists []. split; [|constructor].
  cbn. now rewrite app_nil_r.
Qed.

Lemma page_only_emit e : pipeline_event e = false -> page_only (emit e).
Proof.
  intros He w. split; [reflexivity|]. exists [e]. split; [reflexivity|].
  now repeat constructor.
Qed.

Lemma page_only_get_session : page_only get_session.
Proof.
  intros w. split; [reflexivity|]. exists []. split; [|constructor].
  cbn. now rewrite app_nil_r.
Qed.

Lemma page_only_bind {A B} (m : M A) (f : A -> M B) :
  page_only m -> (forall a, page_only (f a)) -> page_only (m ≫= f).
Proof.
  intros Hm Hf w. unfold mbind, M_bind.
  destruct (Hm w) as (Hs & new & Ht & Hnew).
  destruct (m w) as [[a|e] w1]; cbn [snd] in *.
  - destruct (Hf a w1) as (Hs' & new' & Ht' & Hnew').
    split; [congruence|]. exists (new ++ new').
    split; [now rewrite Ht', Ht, app_assoc | now apply Forall_app].
  - split; [exact Hs|]. now exists new.
Qed.

Lemma page_only_for_enumerate {A} (f : nat -> A -> M unit) i l :
  (forall i x, page_only (f i x)) -> page_only (for_enumerate f i l).
Proof.
  intros Hf. revert i. induction l as [|x l IH]; intros i; cbn [for_enumerate].
  - apply page_only_ret.
  - apply page_only_bind; [apply Hf | intros _; apply IH].
Qed.

Lemma page_only_comment_card i comment : page_only (comment_card i comment).
Proof.
  unfold comment_card. apply page_only_bind.
  - destruct (negb _); [now apply page_only_emit | apply page_only_ret].
  - intros _. destruct (sentiment_map _);
      [now apply page_only_emit | apply page_only_raise].
Qed.

Lemma page_only_results_section filter_choice :
  page_only (results_section filter_choice).
Proof.
  unfold results_section. apply page_only_bind; [apply page_only_get_session|].
  intros s. destruct (analysis_results s) as [[r|]|].
  - apply page_only_bind; [now apply page_only_emit|]. intros _.
    apply page_only_bind; [now apply page_only_emit|]. intros _.
    destruct (truthy _).
    + apply page_only_for_enumerate, page_only_comment_card.
    + now apply page_only_emit.
  - now apply page_only_emit.
  - apply page_only_ret.
Qed.

Lemma for_each_emit {A} (f : A -> event) (l : list A) w :
  for_each (fun x => emit (f x)) l w
  = (Ok tt, World (session w) (trace w ++ map f l)).
Proof.
  revert w. induction l as [|x l IH]; intros w; cbn [for_each map].
  - rewrite app_nil_r. now destruct w.
  - erewrite bind_ok by apply emit_eq. rewrite IH. cbn [session trace].
    now rewrite <- app_assoc.
Qed.

(** ** The session flow *)

Section Session.

Variable reddit_search : string -> string -> list post.
Variable reddit_comments : string -> list praw_comment.
Variable sentiment_pipeline : pipeline_input -> list prediction.

(** The search handler: the posts are replaced, and no result is left,
    whether there was one or not. *)
Lemma search_section_click topic subreddit w :
  search_section reddit_search ClickSearch topic subreddit w
  = let subreddit' := if String.eqb subreddit "" then "all" else subreddit in
    (Ok tt,
     World (SessionState (Some (reddit_search topic subreddit')) None
              (widgets (session w)))
       (trace w ++ [EvSearch topic subreddit'])).
Proof.
  unfold search_section, search_posts, button.
  rewrite bool_decide_eq_true_2 by reflexivity. cbv zeta.
  unfold mbind, M_bind, mret, M_ret, emit, get_session, put_session.
  cbn [session trace analysis_results posts widgets].
  now destruct (analysis_results (session w)).
Qed.

Lemma search_section_idle clicked topic subreddit w :
  clicked <> ClickSearch ->
  search_section reddit_search clicked topic subreddit w = (Ok tt, w).
Proof.
  intros H. unfold search_section, button.
  rewrite bool_decide_eq_false_2 by congruence. reflexivity.
Qed.

Lemma analyze_section_idle clicked ps w :
  clicked <> ClickAnalyze ->
  analyze_section reddit_comments sentiment_pipeline clicked ps w = (Ok tt, w).
Proof.
  intros H. unfold analyze_section, button.
  rewrite bool_decide_eq_false_2 by congruence. reflexivity.
Qed.

(** The posts section of a rerun that the analyze button did not cause:
    warnings and checkboxes only. *)
Lemma posts_section_idle clicked w :
  clicked <> ClickAnalyze ->
  exists new,
    posts_section reddit_comments sentiment_pipeline clicked w
    = (Ok tt, World (session w) (trace w ++ new)).
Proof.
  intros H. unfold posts_section. erewrite bind_ok by reflexivity.
  destruct (posts (session w)) as [ps|].
  - destruct ps as [|p ps]; cbn [truthy negb].
    + eexists. apply emit_eq.
    + erewrite bind_ok by now apply analyze_section_idle.
      eexists. apply for_each_emit.
  - exists []. rewrite app_nil_r. now destruct w.
Qed.

Lemma results_section_none filter_choice w :
  analysis_results (session w) = None ->
  results_section filter_choice w = (Ok tt, w).
Proof.
  intros H. unfold results_section. erewrite bind_ok by reflexivity.
  now rewrite H.
Qed.

(** C7. A rerun caused by the search button ends, for every prior state,
    with no analysis_results in the session state: the posts are those of
    the new search, the checkbox states are kept, and neither
    analyze_comments nor the results section runs. *)
Theorem search_discards_results topic subreddit filter_choice w :
  let run := script reddit_search reddit_comments sentiment_pipeline
               ClickSearch topic subreddit filter_choice w in
  let subreddit' := if String.eqb subreddit "" then "all" else subreddit in
  run.1 = Ok tt /\
  analysis_results (session run.2) = None /\
  posts (session run.2) = Some (reddit_search topic subreddit') /\
  widgets (session run.2) = widgets (session w) /\
  (search_section reddit_search ClickSearch topic subreddit w).2
  = World (SessionState (Some (reddit_search topic subreddit')) None
             (widgets (session w)))
      (trace w ++ [EvSearch topic subreddit']).
Proof.
  cbv zeta. unfold script.
  pose proof (search_section_click topic subreddit w) as Hsearch.
  cbv zeta in Hsearch. rewrite Hsearch.
  erewrite bind_ok by exact Hsearch.
  set (w1 := World _ _).
  destruct (posts_section_idle ClickSearch w1 ltac:(discriminate)) as (new & E).
  erewrite bind_ok by exact E.
  rewrite results_section_none by reflexivity.
  cbn [fst snd session analysis_results posts widgets]. subst w1.
  cbn [session analysis_results posts widgets].
  repeat split; reflexivity.
Qed.

Lemma nothing_selected (widgets : gmap string bool) ps :
  (forall p, In p ps -> default false (widgets !! checkbox_key p) = false) ->
  map post_id
    (List.filter (fun p => default false (widgets !! checkbox_key p)) ps) = [].
Proof.
  induction ps as [|p ps IH]; intros H; cbn [List.filter]; [reflexivity|].
  rewrite (H p) by now left. apply IH. intros q Hq. apply H. now right.
Qed.

(** C8. A rerun caused by the analyze button while no checkbox of the
    listed posts is ticked shows the warning and leaves the session state,
    prior results included, as it was; analyze_comments is not called, no
    comment is fetched and the classifier is not run. *)
Theorem analyze_needs_selection topic subreddit filter_choice w ps :
  posts (session w) = Some ps ->
  ps <> [] ->
  (forall p, In p ps ->
     default false (widgets (session w) !! checkbox_key p) = false) ->
  let run := script reddit_search reddit_comments sentiment_pipeline
               ClickAnalyze topic subreddit filter_choice w in
  session run.2 = session w /\
  exists new,
    trace run.2 = trace w ++ new /\
    In (EvWarning "Please select at least one post to analyze.") new /\
    Forall (fun e => pipeline_event e = false) new /\
    (analyze_section reddit_comments sentiment_pipeline ClickAnalyze ps w
     = (Ok tt,
        World (session w)
          (trace w ++ [EvWarning "Please select at least one post to analyze."]))).
Proof.
  intros Hposts Hne Hsel. cbv zeta. unfold script.
  erewrite bind_ok by now apply search_section_idle.
  assert (Hhandler :
            analyze_section reddit_comments sentiment_pipeline ClickAnalyze ps w
            = (Ok tt,
               World (session w)
                 (trace w
                    ++ [EvWarning "Please select at least one post to analyze."]))).
  { unfold analyze_section, button.
    rewrite bool_decide_eq_true_2 by reflexivity.
    erewrite bind_ok by reflexivity.
    now rewrite nothing_selected. }
  assert (Hsection :
            posts_section reddit_comments sentiment_pipeline ClickAnalyze w
            = (Ok tt,
               World (session w)
                 (trace w
                    ++ EvWarning "Please select at least one post to analyze."
                       :: map (fun p => EvCheckbox (checkbox_key p)) ps))).
  { unfold posts_section. erewrite bind_ok by reflexivity.
    rewrite Hposts. destruct ps as [|p ps']; [contradiction|].
    cbn [truthy negb]. erewrite bind_ok by exact Hhandler.
    rewrite for_each_emit. cbn [session trace].
    now rewrite <- app_assoc. }
  erewrite bind_ok by exact Hsection.
  set (w1 := World _ _).
  destruct (page_only_results_section filter_choice w1) as (Hs & new & Ht & Hnew).
  split; [exact Hs|].
  eexists. split; [rewrite Ht; subst w1; cbn [trace]; now rewrite <- app_assoc|].
  split; [now left|]. split; [|exact Hhandler].
  constructor; [reflexivity|]. apply Forall_app. split; [|exact Hnew].
  apply Forall_map. apply Forall_forall. reflexivity.
Qed.

End Session.

(** ** The calls a sarcastic comment costs *)

Section Reclassification.

Variable reddit_comments : string -> list praw_comment.
Variable sentiment_pipeline : pipeline_input -> list prediction.

(** The calls of a run that returns a result: one batched call on the
    texts of all comments, then one single-item call per sarcastic
    comment, in order. *)
Lemma analyze_comments_trace post_ids w r w' :
  analyze_comments reddit_comments sentiment_pipeline post_ids w = (Ok (Some r), w') ->
  let structured_comments := fetched reddit_comments post_ids in
  session w' = session w /\
  trace w' = trace w ++ EvAnalyze post_ids :: map EvFetch post_ids
               ++ EvPipeline (Batch (map cd_text structured_comments))
                  :: single_calls structured_comments.
Proof.
  rewrite analyze_comments_eq. cbv zeta.
  destruct (fetched reddit_comments post_ids) as [|cd0 rest] eqn:Hf; [discriminate|].
  destruct (analyze_loop _ _ _ _ _) as [[acs|e] w2] eqn:Hloop; [|discriminate].
  intros [= _ <-]. apply analyze_loop_ok in Hloop as (-> & _ & _).
  cbn [session trace]. split; [reflexivity|].
  now rewrite <- !app_assoc.
Qed.

(** C5. For a sarcastic comment the underlying sentiment comes from one
    further call of the pipeline, on the cleaned text alone (the text
    without the marker, stripped); the batched results are not consulted,
    so the outcome is the same for any batched results and any index; the
    category is "Sarcastic" and the label "Sarcastic (Reversed to X)", X
    the inverted underlying sentiment.  In a run that returns a result the
    batched call, which had the full text of every comment, comes first
    and the single-item calls follow. *)
Theorem sarcastic_reclassified results i cd w :
  is_sarcastic (cd_text cd) = true ->
  let cleaned := clean_text (cd_text cd) in
  cleaned = PyStr.strip (PyStr.slice_to_minus2 (cd_text cd)) /\
  (forall results' i',
     analyze_comment sentiment_pipeline results' i' cd w
     = analyze_comment sentiment_pipeline results i cd w) /\
  (let w' := (analyze_comment sentiment_pipeline results i cd w).2 in
   session w' = session w /\
   trace w' = trace w ++ [EvPipeline (Single cleaned)]) /\
  (forall p rest,
     sentiment_pipeline (Single cleaned) = p :: rest ->
     (analyze_comment sentiment_pipeline results i cd w).1
     = Ok (AnalyzedComment cleaned "Sarcastic"
             ("Sarcastic (Reversed to "
                +:+ reversed_sentiment (PyStr.capitalize (label p)) +:+ ")")
             (cd_parent_text cd))) /\
  (sentiment_pipeline (Single cleaned) = [] ->
     (analyze_comment sentiment_pipeline results i cd w).1 = Raise IndexError) /\
  (forall post_ids w0 r w1,
     analyze_comments reddit_comments sentiment_pipeline post_ids w0
     = (Ok (Some r), w1) ->
     let structured_comments := fetched reddit_comments post_ids in
     trace w1 = trace w0 ++ EvAnalyze post_ids :: map EvFetch post_ids
                  ++ EvPipeline (Batch (map cd_text structured_comments))
                     :: single_calls structured_comments /\
     forall k, structured_comments !! k = Some cd ->
       exists ac p rest,
         comments r !! k = Some ac /\
         sentiment_pipeline (Single cleaned) = p :: rest /\
         ac = AnalyzedComment cleaned "Sarcastic"
                ("Sarcastic (Reversed to "
                   +:+ reversed_sentiment (PyStr.capitalize (label p)) +:+ ")")
                (cd_parent_text cd)).
Proof.
  intros Hs cleaned. subst cleaned.
  split; [reflexivity|].
  split; [intros; now rewrite !analyze_comment_sarcastic by assumption|].
  rewrite analyze_comment_sarcastic by assumption. cbn [fst snd session trace].
  split; [split; reflexivity|].
  split; [intros p rest ->; reflexivity|].
  split; [intros ->; reflexivity|].
  intros post_ids w0 r w1 Hrun. cbv zeta.
  split; [now apply analyze_comments_trace in Hrun|].
  apply analyze_comments_some in Hrun as (_ & _ & _ & Hall).
  intros k Hk. destruct (Hall k cd Hk) as (ac & Hac & Hbody).
  specialize (Hbody w). rewrite analyze_comment_sarcastic in Hbody by assumption.
  cbn [fst] in Hbody.
  destruct (sentiment_pipeline (Single _)) as [|p rest]; [discriminate|].
  injection Hbody as <-. eexists _, p, rest. now repeat split.
Qed.

End Reclassification.

(** ** Worked examples on the sample collaborators *)

Lemma counts_invariant_witness :
  labels_ok Sample.pipeline /\
  ((forall r w',
      analyze_comments Sample.forum_comments Sample.pipeline ["p1"; "p2"] Sample.fresh
      = (Ok (Some r), w') ->
      Forall (fun c => category (sentiment_category c)) (comments r) /\
      total_comments (counts r) = length (comments r) /\
      n_positive (counts r) + n_negative (counts r)
      + n_neutral (counts r) + n_sarcastic (counts r)
      = total_comments (counts r)) /\
   (shape_ok Sample.pipeline ->
    exists r w',
      analyze_comments Sample.forum_comments Sample.pipeline ["p1"; "p2"] Sample.fresh
      = (Ok r, w'))).
Proof.
  split; [exact sample_labels_ok|].
  exact (counts_invariant Sample.forum_comments Sample.pipeline ["p1"; "p2"]
           Sample.fresh sample_labels_ok).
Defined.

Example sample_counts :
  (analyze_comments Sample.forum_comments Sample.pipeline ["p1"; "p2"] Sample.fresh).1
  = Ok (Some (Analysis (SummaryCounts 4 1 1 0 2)
                [AnalyzedComment "This is great" "Sarcastic"
                   "Sarcastic (Reversed to Negative)" "A title";
                 AnalyzedComment "bad idea" "Negative" "Negative" "This is great /s";
                 AnalyzedComment "" "Sarcastic" "Sarcastic (Reversed to Negative)" "";
                 AnalyzedComment "Good point" "Positive" "Positive" ""])).
Proof. vm_compute. reflexivity. Qed.

Lemma sarcasm_detection_witness :
  labels_ok Sample.pipeline /\
  (sentiment_category
     (AnalyzedComment "This is great" "Sarcastic"
        "Sarcastic (Reversed to Negative)" "A title") = "Sarcastic"
   <-> is_sarcastic (cd_text Sample.great) = true).
Proof.
  split; [exact sample_labels_ok|].
  refine (proj1 (proj1 (proj2
    (sarcasm_detection Sample.pipeline ["This is great /s"] 0 Sample.great Sample.fresh
       sample_labels_ok)) _ _ _)).
  vm_compute. reflexivity.
Defined.

Lemma inversion_table_witness :
  is_sarcastic (cd_text Sample.great) = true /\
  Sample.pipeline (Single (clean_text (cd_text Sample.great))) = [Prediction "positive"] /\
  exists ac w',
    analyze_comment Sample.pipeline [] 0 Sample.great Sample.fresh = (Ok ac, w') /\
    display_label ac = "Sarcastic (Reversed to Negative)".
Proof.
  split; [reflexivity|]. split; [reflexivity|].
  destruct (proj1 (inversion_table Sample.pipeline [] 0 Sample.great Sample.fresh
                     (Prediction "positive") [] eq_refl eq_refl))
    as (ac & w' & Hrun & _ & Hpos & _).
  exists ac, w'. split; [exact Hrun | exact (Hpos eq_refl)].
Defined.

(** Three sarcastic texts whose cleaned text the sample classifier reads as
    positive, negative and neutral. *)
Example inversion_three_inputs :
  map (fun body =>
         display_label <$>
           match (analyze_comment Sample.pipeline [] 0 (CommentData body "") Sample.fresh).1
           with Ok ac => Some ac | Raise _ => None end)
      ["Great /s"; "awful /S"; "42 /s"]
  = [Some "Sarcastic (Reversed to Negative)";
     Some "Sarcastic (Reversed to Positive)";
     Some "Sarcastic (Reversed to Negative)"].
Proof. vm_compute. reflexivity. Qed.

Lemma sarcastic_reclassified_witness :
  is_sarcastic (cd_text Sample.great) = true /\
  forall results' i',
    analyze_comment Sample.pipeline results' i' Sample.great Sample.fresh
    = analyze_comment Sample.pipeline [] 0 Sample.great Sample.fresh.
Proof.
  split; [reflexivity|].
  exact (proj1 (proj2 (sarcastic_reclassified Sample.forum_comments Sample.pipeline
                         [] 0 Sample.great Sample.fresh eq_refl))).
Defined.

Lemma reversed_never_neutral_witness :
  is_sarcastic (cd_text Sample.great) = true /\
  display_label
    (AnalyzedComment "This is great" "Sarcastic"
       "Sarcastic (Reversed to Negative)" "A title")
  <> "Sarcastic (Reversed to Neutral)".
Proof.
  split; [reflexivity|].
  refine (proj1 (proj2 (proj2
    (reversed_never_neutral Sample.pipeline [] 0 Sample.great Sample.fresh _ _ eq_refl _)))).
  vm_compute. reflexivity.
Defined.

Lemma bare_marker_processed_witness :
  whitespace [" "%char] /\
  (analyze_comment Sample.pipeline [] 0 (CommentData " /S" "") Sample.fresh).2
  = World (session Sample.fresh) [EvPipeline (Single "")].
Proof.
  assert (Hws : whitespace [" "%char]) by (repeat constructor).
  split; [exact Hws|].
  destruct (bare_marker_processed Sample.pipeline [] 0 (CommentData " /S" "")
              [" "%char] "S"%char Sample.fresh Hws (or_intror eq_refl) eq_refl)
    as (_ & _ & Hrun & _).
  now rewrite Hrun.
Defined.

Lemma empty_result_marker_witness :
  (forall id, In id ["p2"] -> Sample.forum_comments id = []) /\
  analyze_comments Sample.forum_comments Sample.pipeline ["p2"] Sample.fresh
  = (Ok None, World (session Sample.fresh) [EvAnalyze ["p2"]; EvFetch "p2"]).
Proof.
  assert (H : forall id, In id ["p2"] -> Sample.forum_comments id = []).
  { intros id [<- | []]. reflexivity. }
  split; [exact H|].
  exact (proj1 (empty_result_marker Sample.forum_comments Sample.pipeline ["p2"]
                  Sample.fresh) H).
Defined.

(** A comment whose body is blank is still a comment: the run does not end
    in [None]. *)
Example blank_comment_counts :
  (analyze_comments (fun _ => [PrawComment "   " ParentOther]) Sample.pipeline
     ["p"] Sample.fresh).1
  = Ok (Some (Analysis (SummaryCounts 1 0 0 1 0)
                [AnalyzedComment "" "Neutral" "Neutral" ""])).
Proof. vm_compute. reflexivity. Qed.

Lemma filter_order_preserving_witness :
  "Sarcastic" <> "All" /\
  sublist
    (comments_to_display "Sarcastic"
       [AnalyzedComment "a" "Sarcastic" "Sarcastic (Reversed to Negative)" "";
        AnalyzedComment "b" "Neutral" "Neutral" "";
        AnalyzedComment "c" "Sarcastic" "Sarcastic (Reversed to Positive)" ""])
    [AnalyzedComment "a" "Sarcastic" "Sarcastic (Reversed to Negative)" "";
     AnalyzedComment "b" "Neutral" "Neutral" "";
     AnalyzedComment "c" "Sarcastic" "Sarcastic (Reversed to Positive)" ""].
Proof.
  assert (H : "Sarcastic" <> "All") by discriminate.
  split; [exact H|].
  exact (proj1 (proj2 (proj1 (proj2 (filter_order_preserving _)) "Sarcastic" H))).
Defined.

Lemma analyze_needs_selection_witness :
  posts (session Sample.loaded_unticked)
  = Some (Sample.forum_search "AI ethics" "technology") /\
  session
    (script Sample.forum_search Sample.forum_comments Sample.pipeline
       ClickAnalyze "AI ethics" "technology" "All" Sample.loaded_unticked).2
  = session Sample.loaded_unticked.
Proof.
  split; [reflexivity|].
  refine (proj1 (analyze_needs_selection Sample.forum_search Sample.forum_comments
                   Sample.pipeline "AI ethics" "technology" "All"
                   Sample.loaded_unticked _ eq_refl _ _)).
  - discriminate.
  - intros p [<- | [<- | []]]; reflexivity.
Defined.

(** The two end-to-end runs of the session flow on the sample: analysing the
    one post without comments stores [None] and shows the error; searching
    again drops what was stored. *)
Example sole_empty_post_gives_none :
  let w := World (SessionState (Some (Sample.forum_search "AI ethics" "technology"))
                    None {[ "cb_p2" := true ]}) [] in
  let run := script Sample.forum_search Sample.forum_comments Sample.pipeline
               ClickAnalyze "AI ethics" "technology" "All" w in
  analysis_results (session run.2) = Some None /\
  In (EvError "Could not retrieve or analyze comments.") (trace run.2).
Proof. vm_compute. split; [reflexivity | tauto]. Qed.

Example search_after_results :
  analysis_results
    (session
       (script Sample.forum_search Sample.forum_comments Sample.pipeline
          ClickSearch "AI ethics" "" "All" Sample.loaded_ticked).2)
  = None.
Proof. vm_compute. reflexivity. Qed.

(** * Further properties of the code *)

(** ** Stripping *)

Lemma lstrip_chars_app_nonspace q x r :
  PyStr.is_space x = false ->
  PyStr.lstrip_chars (q ++ x :: r) = PyStr.lstrip_chars q ++ x :: r.
Proof.
  intros Hx. induction q as [|c q IH]; cbn [app PyStr.lstrip_chars].
  - now rewrite Hx.
  - now destruct (PyStr.is_space c).
Qed.

Lemma rstrip_chars_app_spaces l x ws :
  PyStr.is_space x = false -> whitespace ws ->
  PyStr.rstrip_chars (l ++ x :: ws) = l ++ [x].
Proof.
  intros Hx Hws. unfold PyStr.rstrip_chars.
  rewrite rev_app_distr. cbn [rev]. rewrite <- app_assoc. cbn [app].
  rewrite lstrip_chars_app_nonspace by assumption.
  rewrite PyStrFacts.lstrip_chars_spaces by now apply Forall_rev.
  cbn [app rev]. now rewrite rev_involutive.
Qed.

Lemma strip_trimmed s : trimmed (PyStr.strip s).
Proof.
  destruct (PyStrFacts.strip_spec s) as (_ & _ & _ & _ & _ & Hh & Hl).
  split; assumption.
Qed.

Lemma marker_char_nonspace c :
  c = "s"%char \/ c = "S"%char -> PyStr.is_space c = false.
Proof. now intros [-> | ->]. Qed.

(** ** [search_posts] *)



(** ** The first loop *)


Lemma fetched_trimmed (reddit_comments : string -> list praw_comment) post_ids :
  Forall (fun cd => trimmed (cd_text cd)) (fetched reddit_comments post_ids).
Proof.
  unfold fetched. apply List.Forall_forall. intros cd Hin.
  apply in_flat_map in Hin as (id & _ & Hin).
  apply in_map_iff in Hin as (c & <- & _). apply strip_trimmed.
Qed.


(** X3. Because the body is stripped before the test, whitespace after the
    marker does not hide it: a fetched comment is treated as sarcastic
    exactly when its body is some text, a slash, an s of either case, and
    then whitespace only. *)
Theorem marker_before_trailing_whitespace (comment : praw_comment) :
  is_sarcastic (cd_text (structure_comment comment)) = true <->
  exists q c ws,
    PyStr.chars (body comment) = q ++ ["/"%char; c] ++ ws /\
    (c = "s"%char \/ c = "S"%char) /\ whitespace ws.
Proof.
  change (cd_text (structure_comment comment)) with (PyStr.strip (body comment)).
  unfold is_sarcastic. rewrite PyStrFacts.endswith_lower_marker. split.
  - intros (p & c & E & Hc).
    destruct (PyStrFacts.strip_spec (body comment)) as (ws1 & ws2 & Hb & _ & H2 & _).
    exists (ws1 ++ p), c, ws2. split; [|split; assumption].
    rewrite Hb, E. now rewrite <- !app_assoc.
  - intros (q & c & ws & E & Hc & Hws).
    exists (PyStr.lstrip_chars q), c. split; [|exact Hc].
    unfold PyStr.strip. rewrite PyStrFacts.chars_of_chars, E. cbn [app].
    rewrite lstrip_chars_app_nonspace by reflexivity.
    change (PyStr.lstrip_chars q ++ "/"%char :: c :: ws)
      with (PyStr.lstrip_chars q ++ ["/"%char] ++ c :: ws).
    rewrite app_assoc.
    rewrite rstrip_chars_app_spaces by (try apply marker_char_nonspace; assumption).
    now rewrite <- app_assoc.
Qed.

(** ** How [analyze_comments] can end *)

Section AnalysisOutcome.

Variable reddit_comments : string -> list praw_comment.
Variable sentiment_pipeline : pipeline_input -> list prediction.

Lemma analyze_comment_ends results i cd w :
  (labelable sentiment_pipeline results i cd /\
   exists ac, (analyze_comment sentiment_pipeline results i cd w).1 = Ok ac) \/
  (~ labelable sentiment_pipeline results i cd /\
   (analyze_comment sentiment_pipeline results i cd w).1 = Raise IndexError).
Proof.
  unfold labelable. destruct (is_sarcastic (cd_text cd)) eqn:Hs.
  - rewrite analyze_comment_sarcastic by assumption. cbn [fst].
    destruct (sentiment_pipeline (Single _)) as [|p rest].
    + right. split; [intros H; now apply H | reflexivity].
    + left. split; [discriminate | eauto].
  - rewrite analyze_comment_plain by assumption. cbn [fst].
    destruct (results !! i) as [p|].
    + left. split; [eauto | eauto].
    + right. split; [intros [p Hp]; discriminate | reflexivity].
Qed.

(** The loop ends normally when every comment can be labelled, and with
    [IndexError] at the first one that cannot. *)
Lemma analyze_loop_ends results i structured_comments w :
  ((forall k cd, structured_comments !! k = Some cd ->
      labelable sentiment_pipeline results (i + k) cd) /\
   exists analyzed,
     analyze_loop sentiment_pipeline results i structured_comments w
     = (Ok analyzed,
        World (session w) (trace w ++ single_calls structured_comments))) \/
  ((exists k cd, structured_comments !! k = Some cd /\
      ~ labelable sentiment_pipeline results (i + k) cd) /\
   exists new,
     analyze_loop sentiment_pipeline results i structured_comments w
     = (Raise IndexError, World (session w) (trace w ++ new))).
Proof.
  revert i w. induction structured_comments as [|cd rest IH]; intros i w.
  - left. split; [intros k c Hk; discriminate|]. exists [].
    cbn [analyze_loop single_calls flat_map]. rewrite app_nil_r. now destruct w.
  - cbn [analyze_loop].
    pose proof (analyze_comment_world sentiment_pipeline results i cd w) as Hw.
    destruct (analyze_comment_ends results i cd w) as [[Hl [ac Hac]] | [Hn Hr]];
      destruct (analyze_comment sentiment_pipeline results i cd w) as [o w1] eqn:E;
      cbn [fst snd] in *; subst o w1.
    + erewrite bind_ok by exact E.
      destruct (IH (S i) (World (session w) (trace w ++ single_calls [cd])))
        as [[Hall [acs Hacs]] | [(k & c & Hk & Hc) [new Hnew]]];
        cbn [session trace] in *.
      * left. split.
        -- intros [|k] c Hk.
           ++ injection Hk as <-. now rewrite Nat.add_0_r.
           ++ replace (i + S k) with (S i + k) by lia. now apply Hall.
        -- erewrite bind_ok by exact Hacs. exists (ac :: acs).
           now rewrite (single_calls_cons cd rest), app_assoc.
      * right. split.
        -- exists (S k), c. split; [exact Hk|].
           now replace (i + S k) with (S i + k) by lia.
        -- erewrite bind_raise by exact Hnew. eexists.
           now rewrite <- app_assoc.
    + right. split.
      * exists 0, cd. split; [reflexivity | now rewrite Nat.add_0_r].
      * erewrite bind_raise by exact E. now eexists.
Qed.

(** [analyze_comments] ends with [None], with a result, or with
    [IndexError]; the session state is the same in each case. *)
Lemma analyze_comments_ends post_ids w :
  let structured_comments := fetched reddit_comments post_ids in
  let results := sentiment_pipeline (Batch (map cd_text structured_comments)) in
  let run := analyze_comments reddit_comments sentiment_pipeline post_ids w in
  session run.2 = session w /\
  (exists new,
     trace run.2 = trace w ++ EvAnalyze post_ids :: map EvFetch post_ids ++ new) /\
  (((forall k cd, structured_comments !! k = Some cd ->
       labelable sentiment_pipeline results k cd) /\
    exists r, run.1 = Ok r) \/
   ((exists k cd, structured_comments !! k = Some cd /\
       ~ labelable sentiment_pipeline results k cd) /\
    run.1 = Raise IndexError)).
Proof.
  cbv zeta. rewrite analyze_comments_eq. cbv zeta.
  destruct (fetched reddit_comments post_ids) as [|cd0 rest].
  - cbn [fst snd session trace]. split; [reflexivity|].
    split; [exists []; now rewrite app_nil_r|].
    left. split; [intros k c Hk; discriminate | now eexists].
  - set (results := sentiment_pipeline _). set (w1 := World _ _).
    destruct (analyze_loop_ends results 0 (cd0 :: rest) w1)
      as [[Hall [acs ->]] | [Hex [new ->]]]; subst w1; cbn [fst snd session trace].
    + split; [reflexivity|]. split.
      * eexists. rewrite <- !app_assoc. cbn [app]. reflexivity.
      * left. split; [exact Hall | now eexists].
    + split; [reflexivity|]. split.
      * eexists. rewrite <- !app_assoc. cbn [app]. reflexivity.
      * right. split; [exact Hex | reflexivity].
Qed.



End AnalysisOutcome.

(** ** What a result holds *)

Lemma category_indicator (s : string) :
  let n := (if String.eqb "Positive" s then 1 else 0)
           + (if String.eqb "Negative" s then 1 else 0)
           + (if String.eqb "Neutral" s then 1 else 0)
           + (if String.eqb "Sarcastic" s then 1 else 0) in
  (category s /\ n = 1) \/ (~ category s /\ n = 0).
Proof.
  cbv zeta. unfold category.
  destruct (String.eqb_spec "Positive" s) as [<- | H1];
    [left; split; [tauto | reflexivity]|].
  destruct (String.eqb_spec "Negative" s) as [<- | H2];
    [left; split; [tauto | reflexivity]|].
  destruct (String.eqb_spec "Neutral" s) as [<- | H3];
    [left; split; [tauto | reflexivity]|].
  destruct (String.eqb_spec "Sarcastic" s) as [<- | H4];
    [left; split; [tauto | reflexivity]|].
  right. split; [|reflexivity]. intros [E | [E | [E | E]]]; congruence.
Qed.

(** X6. The four category counts of a summary never add up to more than
    total_comments, and they add up to exactly total_comments when, and only
    when, every comment carries one of the four categories. *)
Theorem summarize_counts_bound (analyzed_comments : list analyzed_comment) :
  let c := counts (summarize analyzed_comments) in
  total_comments c = length analyzed_comments /\
  n_positive c + n_negative c + n_neutral c + n_sarcastic c <= total_comments c /\
  (n_positive c + n_negative c + n_neutral c + n_sarcastic c = total_comments c
   <-> Forall (fun a => category (sentiment_category a)) analyzed_comments).
Proof.
  cbv zeta. cbn [counts summarize total_comments n_positive n_negative
                 n_neutral n_sarcastic].
  split; [reflexivity|].
  induction analyzed_comments as [|a l [IHle IHeq]].
  - split; [cbn; lia|]. split; [constructor | reflexivity].
  - cbn [map length]. rewrite !count_cons.
    destruct (category_indicator (sentiment_category a)) as [[Hc Hn] | [Hc Hn]];
      cbv zeta in Hn.
    + split; [lia|]. split.
      * intros E. constructor; [exact Hc|]. apply IHeq. lia.
      * intros H. apply Forall_cons in H as [_ H]. apply IHeq in H. lia.
    + split; [lia|]. split.
      * intros E. exfalso. lia.
      * intros H. apply Forall_cons in H as [H _]. contradiction.
Qed.

Section ResultContents.

Variable reddit_comments : string -> list praw_comment.
Variable sentiment_pipeline : pipeline_input -> list prediction.

(** Comment by comment, what a result holds. *)
Lemma analyze_comments_pairs post_ids w r w' :
  analyze_comments reddit_comments sentiment_pipeline post_ids w = (Ok (Some r), w') ->
  let structured_comments := fetched reddit_comments post_ids in
  let results := sentiment_pipeline (Batch (map cd_text structured_comments)) in
  Forall2 (made_of sentiment_pipeline results) structured_comments (comments r).
Proof.
  intros Hrun. cbv zeta.
  apply analyze_comments_some in Hrun as (_ & Hlen & _ & Hall).
  apply Forall2_same_length_lookup_2; [now symmetry|].
  intros k cd ac Hcd Hac.
  destruct (Hall k cd Hcd) as (ac' & Hac' & Hbody).
  rewrite Hac in Hac'. injection Hac' as <-.
  specialize (Hbody w). unfold made_of.
  destruct (is_sarcastic (cd_text cd)) eqn:Hs.
  - left. split; [reflexivity|].
    rewrite analyze_comment_sarcastic in Hbody by assumption. cbn [fst] in Hbody.
    destruct (sentiment_pipeline (Single _)) as [|p rest]; [discriminate|].
    injection Hbody as <-. now exists p, rest.
  - right. split; [reflexivity|].
    rewrite analyze_comment_plain in Hbody by assumption. cbn [fst] in Hbody.
    destruct (sentiment_pipeline (Batch _) !! k) as [p|] eqn:Hp; [|discriminate].
    injection Hbody as <-. exists p. split; [|reflexivity].
    apply list_elem_of_In. eapply list_elem_of_lookup_2, Hp.
Qed.

Lemma made_of_parent_text results l l' :
  Forall2 (made_of sentiment_pipeline results) l l' ->
  map parent_text l' = map cd_parent_text l.
Proof.
  induction 1 as [|cd ac l l' Hhd _ IH]; [reflexivity|].
  cbn [map]. f_equal; [|exact IH].
  destruct Hhd as [[_ (p & rest & _ & ->)] | [_ (p & _ & ->)]]; reflexivity.
Qed.

Lemma made_of_trimmed results l l' :
  Forall2 (made_of sentiment_pipeline results) l l' ->
  Forall (fun cd => trimmed (cd_text cd)) l ->
  Forall (fun ac => trimmed (text ac)) l'.
Proof.
  induction 1 as [|cd ac l l' Hhd _ IH]; intros Htrim; [constructor|].
  apply Forall_cons in Htrim as [Hcd Htrim].
  constructor; [|now apply IH].
  destruct Hhd as [[_ (p & rest & _ & ->)] | [_ (p & _ & ->)]]; cbn [text].
  - apply strip_trimmed.
  - exact Hcd.
Qed.

Lemma made_of_sarcastic_count results l l' :
  Forall2 (made_of sentiment_pipeline results) l l' ->
  length (marked l) <= PyStr.count "Sarcastic" (map sentiment_category l') /\
  ((forall p, In p results -> base_label (PyStr.capitalize (label p))) ->
   PyStr.count "Sarcastic" (map sentiment_category l') = length (marked l)).
Proof.
  induction 1 as [|cd ac l l' Hhd _ [IHle IHeq]];
    [split; [reflexivity | intros _; reflexivity]|].
  unfold marked in *. cbn [List.filter map]. rewrite count_cons.
  destruct Hhd as [[Hs (p & rest & _ & ->)] | [Hs (p & Hp & ->)]];
    rewrite Hs; cbn [sentiment_category length].
  - change (String.eqb "Sarcastic" "Sarcastic") with true. cbv iota.
    split; [lia|]. intros Hlab. specialize (IHeq Hlab). lia.
  - split; [destruct (String.eqb _ _); lia|].
    intros Hlab. specialize (IHeq Hlab).
    destruct (String.eqb_spec "Sarcastic" (PyStr.capitalize (label p))) as [E | _];
      [|lia].
    exfalso. symmetry in E.
    now apply (base_label_not_sarcastic _ (Hlab p Hp)).
Qed.

(** X7. A result keeps the comments in the order they were fetched, one
    entry per comment, each with the parent text recorded for it; and the
    comment at index k, unless it carries the marker, gets the k-th batched
    result: its category and its label are that result's capitalised label
    and its text is the stripped body. *)
Theorem result_aligned_with_batch post_ids w r w' :
  analyze_comments reddit_comments sentiment_pipeline post_ids w = (Ok (Some r), w') ->
  let structured_comments := fetched reddit_comments post_ids in
  let results := sentiment_pipeline (Batch (map cd_text structured_comments)) in
  length (comments r) = length structured_comments /\
  map parent_text (comments r) = map cd_parent_text structured_comments /\
  (forall k cd,
     structured_comments !! k = Some cd ->
     is_sarcastic (cd_text cd) = false ->
     exists p,
       results !! k = Some p /\
       comments r !! k
       = Some (AnalyzedComment (cd_text cd) (PyStr.capitalize (label p))
                 (PyStr.capitalize (label p)) (cd_parent_text cd))).
Proof.
  intros Hrun. cbv zeta.
  pose proof (analyze_comments_pairs _ _ _ _ Hrun) as Hpairs. cbv zeta in Hpairs.
  apply analyze_comments_some in Hrun as (_ & Hlen & _ & Hall).
  split; [exact Hlen|]. split; [eapply made_of_parent_text, Hpairs|].
  intros k cd Hcd Hs. destruct (Hall k cd Hcd) as (ac & Hac & Hbody).
  specialize (Hbody w). rewrite analyze_comment_plain in Hbody by assumption.
  cbn [fst] in Hbody.
  destruct (sentiment_pipeline (Batch _) !! k) as [p|]; [|discriminate].
  injection Hbody as <-. now exists p.
Qed.

(** X8. Every text a result shows is free of leading and trailing
    whitespace, for sarcastic and other comments alike. *)
Theorem result_texts_trimmed post_ids w r w' :
  analyze_comments reddit_comments sentiment_pipeline post_ids w = (Ok (Some r), w') ->
  Forall (fun ac => trimmed (text ac)) (comments r).
Proof.
  intros Hrun.
  pose proof (analyze_comments_pairs _ _ _ _ Hrun) as Hpairs. cbv zeta in Hpairs.
  eapply made_of_trimmed; [exact Hpairs|]. apply fetched_trimmed.
Qed.

(** X9. The sarcastic count of a result is at least the number of fetched
    comments that carry the marker, and exactly that number when the
    classifier keeps to its three labels. *)
Theorem sarcastic_count_is_marked post_ids w r w' :
  analyze_comments reddit_comments sentiment_pipeline post_ids w = (Ok (Some r), w') ->
  let structured_comments := fetched reddit_comments post_ids in
  length (marked structured_comments) <= n_sarcastic (counts r) /\
  (labels_ok sentiment_pipeline ->
   n_sarcastic (counts r) = length (marked structured_comments)).
Proof.
  intros Hrun. cbv zeta.
  pose proof (analyze_comments_pairs _ _ _ _ Hrun) as Hpairs. cbv zeta in Hpairs.
  apply analyze_comments_some in Hrun as (Hr & _).
  rewrite Hr. cbn [counts summarize n_sarcastic].
  destruct (made_of_sarcastic_count _ _ _ Hpairs) as [Hle Heq].
  split; [exact Hle|]. intros Hlab. apply Heq. intros p Hp. eapply Hlab, Hp.
Qed.

End ResultContents.

(** ** Computations that contact no collaborator *)

Section Quiet.

Variable bad : event -> bool.

Lemma quiet_ret {A} (a : A) : quiet bad (mret a).
Proof.
  intros w. split; [reflexivity|]. exists []. split; [|constructor].
  cbn. now rewrite app_nil_r.
Qed.

Lemma quiet_raise {A} (e : exn) : quiet bad (@raise A e).
Proof.
  intros w. split; [reflexivity|]. exists []. split; [|constructor].
  cbn. now rewrite app_nil_r.
Qed.

Lemma quiet_emit e : bad e = false -> quiet bad (emit e).
Proof.
  intros He w. split; [reflexivity|]. exists [e]. split; [reflexivity|].
  now repeat constructor.
Qed.

Lemma quiet_get_session : quiet bad get_session.
Proof.
  intros w. split; [reflexivity|]. exists []. split; [|constructor].
  cbn. now rewrite app_nil_r.
Qed.

Lemma quiet_bind {A B} (m : M A) (f : A -> M B) :
  quiet bad m -> (forall a, quiet bad (f a)) -> quiet bad (m ≫= f).
Proof.
  intros Hm Hf w. unfold mbind, M_bind.
  destruct (Hm w) as (Hs & new & Ht & Hnew).
  destruct (m w) as [[a|e] w1]; cbn [snd] in *.
  - destruct (Hf a w1) as (Hs' & new' & Ht' & Hnew').
    split; [congruence|]. exists (new ++ new').
    split; [now rewrite Ht', Ht, app_assoc | now apply Forall_app].
  - split; [exact Hs|]. now exists new.
Qed.

Lemma quiet_for_each {A} (f : A -> M unit) l :
  (forall x, quiet bad (f x)) -> quiet bad (for_each f l).
Proof.
  intros Hf. induction l as [|x l IH]; cbn [for_each].
  - apply quiet_ret.
  - apply quiet_bind; [apply Hf | intros _; apply IH].
Qed.

Lemma quiet_for_enumerate {A} (f : nat -> A -> M unit) i l :
  (forall i x, quiet bad (f i x)) -> quiet bad (for_enumerate f i l).
Proof.
  intros Hf. revert i. induction l as [|x l IH]; intros i; cbn [for_enumerate].
  - apply quiet_ret.
  - apply quiet_bind; [apply Hf | intros _; apply IH].
Qed.

End Quiet.

Lemma quiet_results_section filter_choice :
  quiet collaborator_event (results_section filter_choice).
Proof.
  unfold results_section. apply quiet_bind; [apply quiet_get_session|].
  intros s. destruct (analysis_results s) as [[r|]|].
  - apply quiet_bind; [now apply quiet_emit|]. intros _.
    apply quiet_bind; [now apply quiet_emit|]. intros _.
    destruct (truthy _); [|now apply quiet_emit].
    apply quiet_for_enumerate. intros i c. unfold comment_card.
    apply quiet_bind.
    + destruct (negb _); [now apply quiet_emit | apply quiet_ret].
    + intros _. destruct (sentiment_map _);
        [now apply quiet_emit | apply quiet_raise].
  - now apply quiet_emit.
  - apply quiet_ret.
Qed.

(** ** Reruns of the script *)

Section Reruns.

Variable reddit_search : string -> string -> list post.
Variable reddit_comments : string -> list praw_comment.
Variable sentiment_pipeline : pipeline_input -> list prediction.

Lemma posts_section_quiet clicked w :
  clicked <> ClickAnalyze \/ posts (session w) = None \/ posts (session w) = Some [] ->
  exists new,
    posts_section reddit_comments sentiment_pipeline clicked w
    = (Ok tt, World (session w) (trace w ++ new)) /\
    Forall (fun e => collaborator_event e = false) new.
Proof.
  intros H. unfold posts_section. erewrite bind_ok by reflexivity.
  destruct (posts (session w)) as [[|p ps]|] eqn:Hp.
  - cbn [truthy negb]. eexists. split; [apply emit_eq | now repeat constructor].
  - destruct H as [H | [H | H]]; [|discriminate..].
    cbn [truthy negb]. erewrite bind_ok by now apply analyze_section_idle.
    eexists. split; [apply for_each_emit|].
    apply Forall_map. now apply Forall_forall.
  - exists []. split; [rewrite app_nil_r; now destruct w | constructor].
Qed.

(** X10. A rerun that neither button caused, or one caused by the analyze
    button while no posts are listed, changes nothing in the session state
    and contacts no collaborator: no search, no fetch, no classifier call,
    no call of analyze_comments.  Changing the filter is such a rerun. *)
Theorem idle_rerun_changes_nothing clicked topic subreddit filter_choice w :
  clicked <> ClickSearch ->
  clicked <> ClickAnalyze \/ posts (session w) = None \/ posts (session w) = Some [] ->
  let run := script reddit_search reddit_comments sentiment_pipeline
               clicked topic subreddit filter_choice w in
  session run.2 = session w /\
  exists new,
    trace run.2 = trace w ++ new /\
    Forall (fun e => collaborator_event e = false) new.
Proof.
  intros Hsearch Hidle. cbv zeta. unfold script.
  erewrite bind_ok by now apply search_section_idle.
  destruct (posts_section_quiet clicked w Hidle) as (new1 & E1 & H1).
  erewrite bind_ok by exact E1.
  destruct (quiet_results_section filter_choice
              (World (session w) (trace w ++ new1))) as (Hs & new2 & Ht & H2).
  cbn [session trace] in *. split; [exact Hs|].
  exists (new1 ++ new2). split; [now rewrite Ht, app_assoc | now apply Forall_app].
Qed.

Lemma truthy_true {A} (l : list A) : l <> [] -> truthy l = true.
Proof. now destruct l. Qed.

Lemma selected_nonempty (widgets : gmap string bool) ps :
  map post_id
    (List.filter (fun p => default false (widgets !! checkbox_key p)) ps) <> [] ->
  ps <> [].
Proof. intros H ->. now apply H. Qed.

(** X11. A rerun caused by the analyze button with at least one listed post
    ticked calls analyze_comments once, on the ids of the ticked posts in
    the order they are listed (a post whose checkbox key is missing counts
    as unticked).  When that call returns, its value, None included, is
    stored as analysis_results, the posts and checkbox states stay as they
    were, and what follows only renders. *)
Theorem analyze_stores_result topic subreddit filter_choice w ps r w1 :
  posts (session w) = Some ps ->
  let selected_posts :=
    map post_id
      (List.filter (fun p => default false (widgets (session w) !! checkbox_key p))
         ps) in
  selected_posts <> [] ->
  analyze_comments reddit_comments sentiment_pipeline selected_posts w = (Ok r, w1) ->
  let run := script reddit_search reddit_comments sentiment_pipeline
               ClickAnalyze topic subreddit filter_choice w in
  session run.2 = SessionState (Some ps) (Some r) (widgets (session w)) /\
  (exists new, trace w1 = trace w ++ EvAnalyze selected_posts :: new) /\
  exists new,
    trace run.2
    = trace w1 ++ map (fun p => EvCheckbox (checkbox_key p)) ps ++ new /\
    Forall (fun e => collaborator_event e = false) new.
Proof.
  intros Hposts selected_posts Hsel Hrun. subst selected_posts. cbv zeta.
  unfold script. erewrite bind_ok by now apply search_section_idle.
  match type of Hrun with
  | analyze_comments _ _ ?ids _ = _ =>
      pose proof (analyze_comments_ends reddit_comments sentiment_pipeline ids w)
        as (Hs1 & (new0 & Ht1) & _)
  end.
  cbv zeta in Hs1, Ht1. rewrite Hrun in Hs1, Ht1. cbn [snd] in Hs1, Ht1.
  pose proof (selected_nonempty _ _ Hsel) as Hne.
  assert (Hhandler :
            analyze_section reddit_comments sentiment_pipeline ClickAnalyze ps w
            = (Ok tt,
               World (SessionState (Some ps) (Some r) (widgets (session w)))
                 (trace w1))).
  { unfold analyze_section, button.
    rewrite bool_decide_eq_true_2 by reflexivity.
    erewrite bind_ok by reflexivity.
    rewrite (truthy_true _ Hsel).
    erewrite bind_ok by exact Hrun. erewrite bind_ok by reflexivity.
    unfold put_session. now rewrite Hs1, Hposts. }
  assert (Hsection :
            posts_section reddit_comments sentiment_pipeline ClickAnalyze w
            = (Ok tt,
               World (SessionState (Some ps) (Some r) (widgets (session w)))
                 (trace w1 ++ map (fun p => EvCheckbox (checkbox_key p)) ps))).
  { unfold posts_section. erewrite bind_ok by reflexivity. rewrite Hposts.
    rewrite (truthy_true _ Hne). cbn [negb].
    erewrite bind_ok by exact Hhandler. now rewrite for_each_emit. }
  erewrite bind_ok by exact Hsection.
  destruct (quiet_results_section filter_choice
              (World (SessionState (Some ps) (Some r) (widgets (session w)))
                 (trace w1 ++ map (fun p => EvCheckbox (checkbox_key p)) ps)))
    as (Hs & new & Ht & Hnew).
  cbn [session trace] in *. split; [exact Hs|].
  split; [eexists; exact Ht1|].
  exists new. split; [now rewrite Ht, <- app_assoc | exact Hnew].
Qed.


End Reruns.

(** ** The results section *)

Lemma sentiment_map_known key :
  (category key /\ exists emoji_color, sentiment_map key = Some emoji_color) \/
  (~ category key /\ sentiment_map key = None).
Proof.
  unfold sentiment_map, category.
  destruct (String.eqb_spec key "Positive") as [-> | H1]; [left; split; eauto|].
  destruct (String.eqb_spec key "Negative") as [-> | H2]; [left; split; eauto|].
  destruct (String.eqb_spec key "Neutral") as [-> | H3]; [left; split; eauto|].
  destruct (String.eqb_spec key "Sarcastic") as [-> | H4];
    [left; split; eauto 6|].
  right. split; [tauto | reflexivity].
Qed.

Lemma comment_card_eq i comment w :
  comment_card i comment w
  = (match sentiment_map (sentiment_category comment) with
     | Some _ => Ok tt
     | None => Raise (KeyError (sentiment_category comment))
     end,
     World (session w) (trace w ++ card_events i comment)).
Proof.
  unfold comment_card, card_events, mbind, M_bind, mret, M_ret, emit, raise.
  destruct (String.eqb (parent_text comment) "");
    destruct (sentiment_map (sentiment_category comment));
    cbn [negb session trace app]; rewrite <- ?app_assoc, ?app_nil_r;
    try reflexivity; now destruct w.
Qed.

Lemma for_enumerate_cards i shown w :
  first_unknown shown = None ->
  for_enumerate comment_card i shown w
  = (Ok tt, World (session w) (trace w ++ cards_from i shown)).
Proof.
  unfold first_unknown. revert i w.
  induction shown as [|c rest IH]; intros i w Hknown.
  - cbn. rewrite app_nil_r. now destruct w.
  - cbn [List.find] in Hknown. cbn [for_enumerate cards_from].
    pose proof (comment_card_eq i c w) as Hcard.
    destruct (sentiment_map (sentiment_category c)); [|discriminate].
    erewrite bind_ok by exact Hcard. rewrite IH by assumption.
    cbn [session trace]. now rewrite <- app_assoc.
Qed.

Lemma for_enumerate_key_error i shown w c :
  first_unknown shown = Some c ->
  (for_enumerate comment_card i shown w).1 = Raise (KeyError (sentiment_category c)) /\
  sentiment_map (sentiment_category c) = None /\ In c shown.
Proof.
  unfold first_unknown. revert i w.
  induction shown as [|c0 rest IH]; intros i w Hfind; [discriminate|].
  cbn [List.find] in Hfind. cbn [for_enumerate].
  pose proof (comment_card_eq i c0 w) as Hcard.
  destruct (sentiment_map (sentiment_category c0)) eqn:Hmap.
  - erewrite bind_ok by exact Hcard.
    destruct (IH (S i) (World (session w) (trace w ++ card_events i c0)) Hfind)
      as (Hr & Hn & Hin).
    split; [exact Hr|]. split; [exact Hn | now right].
  - injection Hfind as <-. erewrite bind_raise by exact Hcard.
    split; [reflexivity|]. split; [exact Hmap | now left].
Qed.

Lemma cards_numbered i shown :
  first_unknown shown = None ->
  omap card_number (cards_from i shown) = seq (i + 1) (length shown).
Proof.
  unfold first_unknown. revert i.
  induction shown as [|c rest IH]; intros i Hknown; [reflexivity|].
  cbn [List.find] in Hknown. cbn [cards_from length seq].
  rewrite omap_app. unfold card_events at 1.
  destruct (sentiment_map (sentiment_category c)); [|discriminate].
  rewrite omap_app, IH by assumption.
  replace (S i + 1) with (S (i + 1)) by lia.
  now destruct (String.eqb (parent_text c) "").
Qed.

Lemma first_unknown_none shown :
  Forall (fun c => category (sentiment_category c)) shown ->
  first_unknown shown = None.
Proof.
  unfold first_unknown. induction 1 as [|c rest Hc _ IH]; [reflexivity|].
  cbn [List.find].
  destruct (sentiment_map_known (sentiment_category c)) as [[_ [ec ->]] | [Hn _]];
    [exact IH | contradiction].
Qed.

(** X13. What the results section puts on the page.  Without
    analysis_results it shows nothing; for the value None it shows the error
    message and nothing else; for a result whose shown comments all have one
    of the four categories it shows the counts, "Showing n of m" with n the
    number of comments that pass the filter and m the number of all
    comments, and then either the cards of the n comments, numbered 1 to n
    in their order, or, when n is 0, the message that no comment was found
    for the filter.  It ends normally in each case. *)
Theorem results_section_page filter_choice w :
  (analysis_results (session w) = None ->
   results_section filter_choice w = (Ok tt, w)) /\
  (analysis_results (session w) = Some None ->
   results_section filter_choice w
   = (Ok tt,
      World (session w)
        (trace w ++ [EvError "Could not retrieve or analyze comments."]))) /\
  (forall r,
     analysis_results (session w) = Some (Some r) ->
     let shown := comments_to_display filter_choice (comments r) in
     Forall (fun c => category (sentiment_category c)) shown ->
     results_section filter_choice w
     = (Ok tt,
        World (session w)
          (trace w
             ++ EvMetrics (counts r)
                :: EvShowing (length shown) (length (comments r))
                :: match shown with
                   | [] => [EvWrite "No comments found for this filter."]
                   | _ :: _ => cards_from 0 shown
                   end)) /\
     omap card_number (cards_from 0 shown) = seq 1 (length shown)).
Proof.
  split; [apply results_section_none|]. split.
  - intros H. unfold results_section. erewrite bind_ok by reflexivity.
    rewrite H. apply emit_eq.
  - intros r H shown Hcat.
    pose proof (first_unknown_none shown Hcat) as Hknown.
    split; [|now apply (cards_numbered 0)].
    unfold results_section. erewrite bind_ok by reflexivity. rewrite H.
    erewrite bind_ok by apply emit_eq. erewrite bind_ok by apply emit_eq.
    fold shown. cbn [session trace]. rewrite <- !app_assoc. cbn [app].
    destruct shown as [|c rest] eqn:Eshown; cbn [truthy].
    + rewrite emit_eq. cbn [session trace]. now rewrite <- !app_assoc.
    + rewrite for_enumerate_cards by assumption.
      cbn [session trace]. now rewrite <- !app_assoc.
Qed.

(** X14. The results section can fail only on a category outside the four:
    it then raises KeyError with that category, at the first such comment
    among those shown.  With a filter choice that is one of the four
    categories this cannot happen, whatever the stored result holds, and it
    cannot happen under any choice when all comments have one of the four
    categories. *)
Theorem results_section_key_error filter_choice w r :
  analysis_results (session w) = Some (Some r) ->
  let shown := comments_to_display filter_choice (comments r) in
  (forall c,
     first_unknown shown = Some c ->
     (results_section filter_choice w).1 = Raise (KeyError (sentiment_category c)) /\
     ~ category (sentiment_category c) /\ In c (comments r)) /\
  (forall e, (results_section filter_choice w).1 = Raise e ->
     exists c, first_unknown shown = Some c /\ e = KeyError (sentiment_category c)) /\
  (category filter_choice -> (results_section filter_choice w).1 = Ok tt) /\
  (Forall (fun c => category (sentiment_category c)) (comments r) ->
   (results_section filter_choice w).1 = Ok tt).
Proof.
  intros H shown.
  assert (Hrun : results_section filter_choice w
                 = (if truthy shown then for_enumerate comment_card 0 shown
                    else emit (EvWrite "No comments found for this filter."))
                     (World (session w)
                        (trace w ++ [EvMetrics (counts r);
                                     EvShowing (length shown) (length (comments r))]))).
  { unfold results_section. erewrite bind_ok by reflexivity. rewrite H.
    erewrite bind_ok by apply emit_eq. erewrite bind_ok by apply emit_eq.
    fold shown. cbn [session trace]. now rewrite <- !app_assoc. }
  assert (Hok : first_unknown shown = None ->
                (results_section filter_choice w).1 = Ok tt).
  { intros Hknown. rewrite Hrun. destruct shown; [reflexivity|].
    cbn [truthy]. now rewrite for_enumerate_cards. }
  assert (Hsub : forall c, In c shown -> In c (comments r)).
  { intros c. subst shown. unfold comments_to_display.
    destruct (String.eqb filter_choice "All"); [tauto|].
    intros Hin. now apply filter_In in Hin as [Hin _]. }
  split; [|split; [|split]].
  - intros c Hc. rewrite Hrun.
    destruct shown as [|c0 rest] eqn:Eshown; [discriminate|].
    cbn [truthy].
    destruct (for_enumerate_key_error 0 _
                (World (session w)
                   (trace w ++ [EvMetrics (counts r);
                                EvShowing (length (c0 :: rest)) (length (comments r))]))
                c Hc) as (Hr & Hn & Hin).
    split; [exact Hr|]. split; [|now apply Hsub].
    destruct (sentiment_map_known (sentiment_category c)) as [[_ [ec E]] | [Hnc _]];
      [congruence | exact Hnc].
  - intros e He. destruct (first_unknown shown) as [c|] eqn:Hf.
    + exists c. split; [reflexivity|].
      rewrite Hrun in He. destruct shown as [|c0 rest] eqn:Eshown; [discriminate|].
      cbn [truthy] in He.
      destruct (for_enumerate_key_error 0 _
                  (World (session w)
                     (trace w ++ [EvMetrics (counts r);
                                  EvShowing (length (c0 :: rest))
                                    (length (comments r))]))
                  c Hf) as (Hr & _). congruence.
    + rewrite (Hok eq_refl) in He. discriminate.
  - intros Hcat. apply Hok, first_unknown_none.
    apply List.Forall_forall. intros c Hin. subst shown.
    unfold comments_to_display in Hin.
    destruct (String.eqb_spec filter_choice "All") as [-> | _].
    + exfalso. destruct Hcat as [E | [E | [E | E]]]; discriminate.
    + apply filter_In in Hin as [_ Hc]. apply String.eqb_eq in Hc. now rewrite Hc.
  - intros Hall. apply Hok, first_unknown_none.
    apply List.Forall_forall. intros c Hin.
    rewrite List.Forall_forall in Hall. now apply Hall, Hsub.
Qed.

(** ** Start-up *)


(** ** Worked examples for the further properties *)




Lemma result_aligned_with_batch_witness :
  exists r w',
    analyze_comments Sample.forum_comments Sample.pipeline ["p1"; "p2"] Sample.fresh
    = (Ok (Some r), w') /\
    map parent_text (comments r)
    = map cd_parent_text (fetched Sample.forum_comments ["p1"; "p2"]).
Proof.
  eexists _, _. split; [vm_compute; reflexivity|].
  eapply (result_aligned_with_batch Sample.forum_comments Sample.pipeline
            ["p1"; "p2"] Sample.fresh).
  vm_compute. reflexivity.
Defined.

Lemma result_texts_trimmed_witness :
  exists r w',
    analyze_comments Sample.forum_comments Sample.pipeline ["p1"; "p2"] Sample.fresh
    = (Ok (Some r), w') /\
    Forall (fun ac => trimmed (text ac)) (comments r).
Proof.
  eexists _, _. split; [vm_compute; reflexivity|].
  eapply (result_texts_trimmed Sample.forum_comments Sample.pipeline
            ["p1"; "p2"] Sample.fresh).
  vm_compute. reflexivity.
Defined.

Lemma sarcastic_count_is_marked_witness :
  exists r w',
    analyze_comments Sample.forum_comments Sample.pipeline ["p1"; "p2"] Sample.fresh
    = (Ok (Some r), w') /\
    labels_ok Sample.pipeline /\
    n_sarcastic (counts r)
    = length (marked (fetched Sample.forum_comments ["p1"; "p2"])).
Proof.
  eexists _, _. split; [vm_compute; reflexivity|].
  split; [exact sample_labels_ok|].
  eapply (sarcastic_count_is_marked Sample.forum_comments Sample.pipeline
            ["p1"; "p2"] Sample.fresh); [|exact sample_labels_ok].
  vm_compute. reflexivity.
Defined.

Lemma idle_rerun_changes_nothing_witness :
  OtherInteraction <> ClickSearch /\
  session
    (script Sample.forum_search Sample.forum_comments Sample.pipeline
       OtherInteraction "AI ethics" "technology" "Sarcastic" Sample.loaded_ticked).2
  = session Sample.loaded_ticked.
Proof.
  assert (H : OtherInteraction <> ClickSearch) by discriminate.
  split; [exact H|].
  refine (proj1 (idle_rerun_changes_nothing Sample.forum_search Sample.forum_comments
                   Sample.pipeline OtherInteraction "AI ethics" "technology"
                   "Sarcastic" Sample.loaded_ticked H _)).
  left. discriminate.
Defined.

Lemma analyze_stores_result_witness :
  exists r w1,
    analyze_comments Sample.forum_comments Sample.pipeline ["p1"] Sample.loaded_ticked
    = (Ok r, w1) /\
    session
      (script Sample.forum_search Sample.forum_comments Sample.pipeline
         ClickAnalyze "AI ethics" "technology" "All" Sample.loaded_ticked).2
    = SessionState (Some (Sample.forum_search "AI ethics" "technology")) (Some r)
        (widgets (session Sample.loaded_ticked)).
Proof.
  eexists _, _. split; [vm_compute; reflexivity|].
  refine (proj1 (analyze_stores_result Sample.forum_search Sample.forum_comments
                   Sample.pipeline "AI ethics" "technology" "All"
                   Sample.loaded_ticked _ _ _ eq_refl _ _)).
  - vm_compute. discriminate.
  - vm_compute. reflexivity.
Defined.


Lemma results_section_page_witness :
  analysis_results (session Sample.loaded_ticked) = Some None /\
  results_section "Neutral" Sample.loaded_ticked
  = (Ok tt,
     World (session Sample.loaded_ticked)
       [EvError "Could not retrieve or analyze comments."]).
Proof.
  split; [reflexivity|].
  exact (proj1 (proj2 (results_section_page "Neutral" Sample.loaded_ticked)) eq_refl).
Defined.

Lemma results_section_key_error_witness :
  let r := summarize [AnalyzedComment "fine" "Positive" "Positive" "";
                      AnalyzedComment "odd" "Label_0" "Label_0" ""] in
  let w := World (SessionState None (Some (Some r)) ∅) [] in
  analysis_results (session w) = Some (Some r) /\
  (results_section "All" w).1 = Raise (KeyError "Label_0") /\
  (results_section "Positive" w).1 = Ok tt.
Proof.
  intros r w. split; [reflexivity|].
  destruct (results_section_key_error "All" w r eq_refl) as (Hbad & _).
  destruct (results_section_key_error "Positive" w r eq_refl) as (_ & _ & Hgood & _).
  split.
  - exact (proj1 (Hbad (AnalyzedComment "odd" "Label_0" "Label_0" "") eq_refl)).
  - apply Hgood. now left.
Defined.
